(** * Image Tools MCP server: a shallow embedding of [tools/mcp_image_server.py]

    The server is glue code around external engines (the filesystem, the
    [base64] module, the Pillow codec, OpenCV's QR detector, pytesseract).
    The engines are collected in a record [Env]; every tool of the source
    file is a function of an [Env] and of its arguments, and Python
    exceptions are values of an error monad [result]. *)

From Stdlib Require Import ZArith Ascii String.
From stdpp Require Import base option list strings gmap sorting.

Local Open Scope Z_scope.

(* ================================================================== *)
(** ** Python values, exceptions and the error monad *)
(* ================================================================== *)

(** The exception classes that can leave a tool handler.  Only
    [ValueError] is raised by the source file itself (a failed tuple
    unpacking); the others come out of the external engines. *)
Inductive exception : Type :=
| ValueError (msg : string)
| BinasciiError (msg : string)
| UnidentifiedImageError (msg : string)
| OSError (msg : string)
| ImportError (msg : string)
| RuntimeError (msg : string).

(** [str(e)] *)
Definition str_of_exception (e : exception) : string :=
  match e with
  | ValueError m | BinasciiError m | UnidentifiedImageError m
  | OSError m | ImportError m | RuntimeError m => m
  end.

Inductive result (A : Type) : Type :=
| Ok (a : A)
| Raise (e : exception).
Arguments Ok {A} a.
Arguments Raise {A} e.

#[global] Instance result_ret : MRet result := fun A a => Ok a.
#[global] Instance result_bind : MBind result := fun A B f m =>
  match m with
  | Ok a => f a
  | Raise e => Raise e
  end.

Definition is_ok {A} (r : result A) : bool :=
  match r with Ok _ => true | Raise _ => false end.

(** Values stored in the dictionaries returned by the tools. *)
Inductive PyVal : Type :=
| PyInt (z : Z)
| PyStr (s : string)
| PyStrList (l : list string).

(* ------------------------------------------------------------------ *)
(** *** Strings *)

(** [s.startswith(prefix)] *)
Fixpoint startswith (s pre : string) : bool :=
  match pre with
  | EmptyString => true
  | String p pre' =>
      match s with
      | EmptyString => false
      | String c s' => if Ascii.eqb c p then startswith s' pre' else false
      end
  end.

(** [s.split(sep, 1)] for a one-character separator: the list has one
    element when [sep] does not occur and two elements otherwise. *)
Fixpoint split1 (sep : ascii) (s : string) : list string :=
  match s with
  | EmptyString => [EmptyString]
  | String c s' =>
      if Ascii.eqb c sep then [EmptyString; s']
      else match split1 sep s' with
           | h :: t => String c h :: t
           | [] => [String c EmptyString]
           end
  end.

(** [a, b = l]: unpacking into exactly two targets. *)
Definition unpack2 {A} (l : list A) : result (A * A) :=
  match l with
  | [a; b] => Ok (a, b)
  | [] | [_] => Raise (ValueError "not enough values to unpack (expected 2)")
  | _ => Raise (ValueError "too many values to unpack (expected 2)")
  end.

(** Does the character occur in the string? *)
Fixpoint occurs (c : ascii) (s : string) : bool :=
  match s with
  | EmptyString => false
  | String d s' => if Ascii.eqb d c then true else occurs c s'
  end.

(** Truth value of a string, of an optional string, of an optional list. *)
Definition truthy_str (s : string) : bool :=
  match s with EmptyString => false | _ => true end.

Definition truthy_list {A} (l : option (list A)) : bool :=
  match l with Some (_ :: _) => true | _ => false end.

(** [x or default] on an optional string ([None] and [""] are falsy). *)
Definition str_or (x : option string) (default : string) : string :=
  match x with
  | Some s => if truthy_str s then s else default
  | None => default
  end.

(** [l or []] on an optional list. *)
Definition list_or_empty {A} (l : option (list A)) : list A :=
  match l with Some l' => l' | None => [] end.


(* ------------------------------------------------------------------ *)
(** *** Lists and integers *)

(** [l[a:b]] with Python's treatment of negative and overlong bounds. *)
Definition slice {A} (l : list A) (a b : Z) : list A :=
  let n := Z.of_nat (length l) in
  let clamp i := if i <? 0 then Z.max (i + n) 0 else Z.min i n in
  take (Z.to_nat (clamp b - clamp a)) (drop (Z.to_nat (clamp a)) l).

(** [r, g, b = l]: unpacking into exactly three targets. *)
Definition unpack3 {A} (l : list A) : result (A * A * A) :=
  match l with
  | [a; b; c] => Ok (a, b, c)
  | [] | [_] | [_; _] => Raise (ValueError "not enough values to unpack (expected 3)")
  | _ => Raise (ValueError "too many values to unpack (expected 3)")
  end.

(** [sorted(l, key=lambda t: t[0], reverse=True)]: a stable sort, largest
    key first, elements with equal keys in their original order. *)
Fixpoint insert_desc {A} (x : Z * A) (l : list (Z * A)) : list (Z * A) :=
  match l with
  | [] => [x]
  | y :: l' => if fst y <=? fst x then x :: y :: l' else y :: insert_desc x l'
  end.

Definition sorted_desc {A} (l : list (Z * A)) : list (Z * A) :=
  foldr insert_desc [] l.

(** Sequential evaluation of a loop body over a list, stopping at the
    first exception. *)
Fixpoint for_each {A B} (f : A -> result B) (l : list A) : result (list B) :=
  match l with
  | [] => Ok []
  | x :: l' => y ← f x; ys ← for_each f l'; mret (y :: ys)
  end.

(** The format specification [02x]: lowercase hexadecimal, zero-padded
    to width two, a minus sign counting towards the width. *)
Definition hex_digit (d : Z) : ascii :=
  match d with
  | 0 => "0" | 1 => "1" | 2 => "2" | 3 => "3" | 4 => "4" | 5 => "5"
  | 6 => "6" | 7 => "7" | 8 => "8" | 9 => "9" | 10 => "a" | 11 => "b"
  | 12 => "c" | 13 => "d" | 14 => "e" | _ => "f"
  end%char.

Fixpoint hex_loop (fuel : nat) (n : Z) (acc : string) : string :=
  let acc' := String (hex_digit (n mod 16)) acc in
  match fuel with
  | O => acc'
  | S fuel' => if n / 16 =? 0 then acc' else hex_loop fuel' (n / 16) acc'
  end.

(** Hexadecimal digits of a natural number, most significant first. *)
Definition to_hex (n : Z) : string :=
  hex_loop (Z.to_nat (Z.log2 n)) n EmptyString.

Fixpoint zeros (k : nat) : string :=
  match k with O => EmptyString | S k' => String "0" (zeros k') end.

Definition zfill (w : nat) (s : string) : string :=
  zeros (w - String.length s) +:+ s.

Definition format_02x (z : Z) : string :=
  if z <? 0 then String "-" (zfill 1 (to_hex (- z))) else zfill 2 (to_hex z).

(* ================================================================== *)
(** ** Data model *)
(* ================================================================== *)

(** A Pillow image as the tools observe it: size, mode, the format tag
    set by the plugin that identified the file (absent on images built
    by an operation), and the raster samples. *)
Record PILImage : Type := mkPIL {
  width : Z;
  height : Z;
  mode : string;
  format : option string;
  samples : list Z
}.

(** [mcp.server.fastmcp.Image(data=..., format=...)] *)
Record Image : Type := mkImage {
  data : list Byte.byte;
  image_format : string
}.

(** [numpy.ndarray] built from an image: rows, columns, samples. *)
Record ndarray : Type := mkArray {
  rows : Z;
  cols : Z;
  values : list Z
}.

(** [np.array(im)] *)
Definition np_array (im : PILImage) : ndarray :=
  mkArray (height im) (width im) (samples im).

(** [cv2.QRCodeDetector()].  [detectAndDecode] returns the decoded
    string (empty when nothing was found); [detectAndDecodeMulti] only
    exists on newer OpenCV builds and returns the decoded strings. *)
Record QRCodeDetector : Type := mkDetector {
  detectAndDecode : ndarray -> result string;
  detectAndDecodeMulti : option (ndarray -> result (option (list string)))
}.

(** The imported [pytesseract] module. *)
Record Pytesseract : Type := mkTesseract {
  image_to_string : PILImage -> string -> result string
}.

Inductive QuantizeMethod : Type := MEDIANCUT | MAXCOVERAGE | FASTOCTREE | LIBIMAGEQUANT.

(** Everything the module reaches outside itself. *)
Record Env : Type := mkEnv {
  (** [os.path.exists] *)
  path_exists : string -> bool;
  (** [base64.b64decode] *)
  b64decode : string -> result (list Byte.byte);
  (** [PILImage.open(path)] and [PILImage.open(io.BytesIO(data))] *)
  open_path : string -> result PILImage;
  open_bytes : list Byte.byte -> result PILImage;
  (** [im.copy()], [im.convert(mode)], [ImageOps.grayscale(im)] *)
  copy : PILImage -> result PILImage;
  convert : PILImage -> string -> result PILImage;
  ops_grayscale : PILImage -> result PILImage;
  (** [im.thumbnail(size)]: the image after the in-place update *)
  thumbnail : PILImage -> Z * Z -> result PILImage;
  (** [im.save(buf, format=...)] followed by [buf.getvalue()] *)
  save : PILImage -> string -> result (list Byte.byte);
  (** [im.quantize(colors=..., method=...)], [q.getpalette()], [q.getcolors()] *)
  quantize : PILImage -> Z -> QuantizeMethod -> result PILImage;
  getpalette : PILImage -> option (list Z);
  getcolors : PILImage -> option (list (Z * Z));
  (** the module-level [cv2] ([None] when the import failed) *)
  cv2 : option QRCodeDetector;
  (** [import pytesseract] inside [ocr_text] *)
  import_pytesseract : result Pytesseract
}.

(* ================================================================== *)
(** ** The tools *)
(* ================================================================== *)

Section Tools.
Variable E : Env.

(** [_decode_image_to_pil] *)
Definition _decode_image_to_pil (image_path_or_b64 : string) : result PILImage :=
  if path_exists E image_path_or_b64 then
    open_path E image_path_or_b64
  else
    b64 ← (if startswith image_path_or_b64 "data:" then
             p ← unpack2 (split1 "," image_path_or_b64);
             mret (snd p)
           else mret image_path_or_b64);
    data ← b64decode E b64;
    open_bytes E data.

(** [image_info] *)
Definition image_info (image : string) : result (gmap string PyVal) :=
  im ← _decode_image_to_pil image;
  mret (<["width" := PyInt (width im)]>
        (<["height" := PyInt (height im)]>
         (<["mode" := PyStr (mode im)]>
          (<["format" := PyStr (str_or (format im) "(unknown)")]> ∅)))).

(** [grayscale] *)
Definition grayscale (image : string) : result Image :=
  im ← _decode_image_to_pil image;
  g ← ops_grayscale E im;
  buf ← save E g "PNG";
  mret (mkImage buf "png").

(** [resize] *)
Definition resize (image : string) (max_w max_h : Z) : result Image :=
  im0 ← _decode_image_to_pil image;
  im ← copy E im0;
  im' ← thumbnail E im (max_w, max_h);
  buf ← save E im' "PNG";
  mret (mkImage buf "png").

(** The body of the loop of [dominant_colors]. *)
Definition hex_of_entry (palette : list Z) (t : Z * Z) : result string :=
  let idx := snd t in
  rgb ← unpack3 (slice palette (idx * 3) (idx * 3 + 3));
  let '(r, g, b) := rgb in
  mret (String "#" (format_02x r +:+ format_02x g +:+ format_02x b)).

(** [dominant_colors] *)
Definition dominant_colors (image : string) (colors : Z)
  : result (gmap string PyVal) :=
  im0 ← _decode_image_to_pil image;
  im ← convert E im0 "RGB";
  q ← quantize E im (Z.max 1 colors) MEDIANCUT;
  let palette := getpalette E q in
  let used := getcolors E q in
  hexes ← (if truthy_list used && truthy_list palette then
             let top := slice (sorted_desc (list_or_empty used)) 0 (Z.max 1 colors) in
             for_each (hex_of_entry (list_or_empty palette)) top
           else mret []);
  mret (<["colors" := PyStrList hexes]> ∅).

(** The body of the loop over [decoded_infos] in [detect_qr]. *)
Definition merge_step (datas : list string) (s : string) : list string :=
  if truthy_str s && negb (bool_decide (s ∈ datas)) then datas ++ [s] else datas.

(** [detect_qr] *)
Definition detect_qr (image : string) : result (gmap string PyVal) :=
  match cv2 E with
  | None =>
      mret (<["error" := PyStr "OpenCV not available. pip install opencv-python"]>
            (<["count" := PyInt 0]>
             (<["data" := PyStrList []]> ∅)))
  | Some detector =>
      im0 ← _decode_image_to_pil image;
      im ← convert E im0 "RGB";
      let arr := np_array im in
      data ← detectAndDecode detector arr;
      let datas := if truthy_str data then [data] else [] in
      datas ← match detectAndDecodeMulti detector with
              | Some multi =>
                  decoded_infos ← multi arr;
                  mret (foldl merge_step datas (list_or_empty decoded_infos))
              | None => mret datas
              end;
      mret (<["count" := PyInt (Z.of_nat (length datas))]>
            (<["data" := PyStrList datas]> ∅))
  end.

(** [ocr_text] *)
Definition ocr_text (image : string) (lang : string) : result string :=
  match import_pytesseract E with
  | Raise e =>
      mret ("pytesseract is not installed or Tesseract binary missing: "
            +:+ str_of_exception e
            +:+ ". Install with `pip install pytesseract` and system Tesseract.")
  | Ok pytesseract =>
      im0 ← _decode_image_to_pil image;
      im ← convert E im0 "L";
      image_to_string pytesseract im lang
  end.

End Tools.

(* ================================================================== *)
(** ** Base64 *)
(* ================================================================== *)

(** The standard alphabet of RFC 4648, and the encoder the testable
    properties apply to a byte buffer before handing it to a tool. *)
Definition Z_of_byte (b : Byte.byte) : Z := Z.of_N (Byte.to_N b).

Definition byte_of_Z (z : Z) : Byte.byte :=
  default Byte.x00 (Byte.of_N (Z.to_N (Z.land z 255))).

Definition b64_alphabet : string :=
  "ABCDEFGHIJKLMNOPQRSTUVWXYZabcdefghijklmnopqrstuvwxyz0123456789+/".

Definition b64_char (d : Z) : ascii :=
  default "A"%char (String.get (Z.to_nat (Z.land d 63)) b64_alphabet).

Fixpoint index_of (c : ascii) (s : string) (i : Z) : option Z :=
  match s with
  | EmptyString => None
  | String d s' => if Ascii.eqb d c then Some i else index_of c s' (i + 1)
  end.

Definition b64_value (c : ascii) : option Z := index_of c b64_alphabet 0.

Fixpoint b64encode_Z (bs : list Z) : string :=
  match bs with
  | [] => EmptyString
  | [a] =>
      String (b64_char (Z.shiftr a 2))
        (String (b64_char (Z.shiftl (Z.land a 3) 4)) "==")
  | [a; b] =>
      String (b64_char (Z.shiftr a 2))
        (String (b64_char (Z.lor (Z.shiftl (Z.land a 3) 4) (Z.shiftr b 4)))
           (String (b64_char (Z.shiftl (Z.land b 15) 2)) "="))
  | a :: b :: c :: rest =>
      String (b64_char (Z.shiftr a 2))
        (String (b64_char (Z.lor (Z.shiftl (Z.land a 3) 4) (Z.shiftr b 4)))
           (String (b64_char (Z.lor (Z.shiftl (Z.land b 15) 2) (Z.shiftr c 6)))
              (String (b64_char (Z.land c 63)) (b64encode_Z rest))))
  end.

(** [base64.b64encode(B).decode()] *)
Definition b64encode (B : list Byte.byte) : string :=
  b64encode_Z (Z_of_byte <$> B).

(** A reference decoder with the behaviour of CPython's
    [base64.b64decode(s)] on a [str] in its default, non-validating mode:
    characters outside the alphabet are skipped, a complete pad sequence
    ends the input, and an input that stops inside a quad is rejected. *)
Fixpoint a2b_base64 (s : string) (quad_pos leftchar pads : Z)
  : result (list Byte.byte) :=
  match s with
  | EmptyString =>
      if quad_pos =? 0 then Ok []
      else if quad_pos =? 1 then
        Raise (BinasciiError "Invalid base64-encoded string: number of data characters cannot be 1 more than a multiple of 4")
      else Raise (BinasciiError "Incorrect padding")
  | String c s' =>
      if Ascii.eqb c "=" then
        if (2 <=? quad_pos) && (4 <=? quad_pos + (pads + 1)) then Ok []
        else a2b_base64 s' quad_pos leftchar
               (if 2 <=? quad_pos then pads + 1 else pads)
      else
        match b64_value c with
        | None => a2b_base64 s' quad_pos leftchar pads
        | Some d =>
            if quad_pos =? 0 then a2b_base64 s' 1 d 0
            else if quad_pos =? 1 then
              rest ← a2b_base64 s' 2 (Z.land d 15) 0;
              mret (byte_of_Z (Z.lor (Z.shiftl leftchar 2) (Z.shiftr d 4)) :: rest)
            else if quad_pos =? 2 then
              rest ← a2b_base64 s' 3 (Z.land d 3) 0;
              mret (byte_of_Z (Z.lor (Z.shiftl leftchar 4) (Z.shiftr d 2)) :: rest)
            else
              rest ← a2b_base64 s' 0 0 0;
              mret (byte_of_Z (Z.lor (Z.shiftl leftchar 6) d) :: rest)
        end
  end.

Fixpoint is_ascii_str (s : string) : bool :=
  match s with
  | EmptyString => true
  | String c s' => (Z.of_nat (nat_of_ascii c) <? 128) && is_ascii_str s'
  end.

Definition py_b64decode (s : string) : result (list Byte.byte) :=
  if is_ascii_str s then a2b_base64 s 0 0 0
  else Raise (ValueError "string argument should contain only ASCII characters").

(* ================================================================== *)
(** ** A reference environment *)
(* ================================================================== *)

(** Concrete engines on which the tools can be evaluated.  None of the
    general theorems below depends on them. *)
Module Reference.

Definition png_signature : list Z := [137; 80; 78; 71; 13; 10; 26; 10].
Definition ihdr_tag : list Z := [73; 72; 68; 82].

Definition be32 (a b c d : Z) : Z := ((a * 256 + b) * 256 + c) * 256 + d.

Definition mode_of_colour_type (t : Z) : string :=
  if t =? 0 then "L" else if t =? 2 then "RGB" else if t =? 3 then "P"
  else if t =? 4 then "LA" else "RGBA".

(** Identification of a PNG stream from its signature and header
    chunk; [tag] is the format tag the plugin records on the image. *)
Definition identify (tag : option string) (bs : list Byte.byte)
  : result PILImage :=
  let zs := Z_of_byte <$> bs in
  if bool_decide (take 8 zs = png_signature)
     && bool_decide (take 4 (drop 12 zs) = ihdr_tag) then
    match drop 16 zs with
    | w3 :: w2 :: w1 :: w0 :: h3 :: h2 :: h1 :: h0 :: _ :: t :: rest =>
        Ok (mkPIL (be32 w3 w2 w1 w0) (be32 h3 h2 h1 h0)
              (mode_of_colour_type t) tag rest)
    | _ => Raise (UnidentifiedImageError "cannot identify image file")
    end
  else Raise (UnidentifiedImageError "cannot identify image file").

(** The header of a 2x1 RGB [PNG] stream. *)
Definition tiny_png : list Byte.byte :=
  byte_of_Z <$> [137; 80; 78; 71; 13; 10; 26; 10; 0; 0; 0; 13; 73; 72; 68; 82;
                 0; 0; 0; 2; 0; 0; 0; 1; 8; 2; 0; 0; 0].

Definition logo_path : string := "/srv/images/logo.png".

Definition logo : PILImage := mkPIL 16 8 "RGBA" (Some "PNG") [].

Definition header_of (im : PILImage) : list Byte.byte :=
  byte_of_Z <$> (png_signature ++ [0; 0; 0; 13] ++ ihdr_tag
                 ++ [0; 0; 0; width im; 0; 0; 0; height im; 8; 2; 0; 0; 0]).

(** Integer box fit standing in for Pillow's [thumbnail]. *)
Definition box_fit (im : PILImage) (size : Z * Z) : result PILImage :=
  let '(mw, mh) := size in
  if (width im <=? mw) && (height im <=? mh) then Ok im
  else if (mw <=? 0) || (mh <=? 0) then
    Raise (ValueError "height and width must be > 0")
  else if mw * height im <=? mh * width im then
    Ok (mkPIL mw (Z.max 1 (mw * height im / width im)) (mode im) (format im) (samples im))
  else
    Ok (mkPIL (Z.max 1 (mh * width im / height im)) mh (mode im) (format im) (samples im)).

Definition detector : QRCodeDetector :=
  mkDetector (fun _ => Ok "HELLO")
             (Some (fun _ => Ok (Some ["HELLO"; ""; "WORLD"; "WORLD"; "jawz"]))).

Definition tesseract : Pytesseract :=
  mkTesseract (fun _ _ => Ok "jawz.io").

(** An environment with one file on disk, parametrised by the format
    tag of decoded streams and by the two optional capabilities. *)
Definition env (tag : option string) (qr : option QRCodeDetector)
    (ocr : result Pytesseract) : Env :=
  {| path_exists := fun p => bool_decide (p = logo_path);
     b64decode := py_b64decode;
     open_path := fun p =>
       if bool_decide (p = logo_path) then Ok logo
       else Raise (OSError "No such file or directory");
     open_bytes := identify tag;
     copy := fun im => Ok im;
     convert := fun im m => Ok (mkPIL (width im) (height im) m None (samples im));
     ops_grayscale := fun im => Ok (mkPIL (width im) (height im) "L" None (samples im));
     thumbnail := box_fit;
     save := fun im _ => Ok (header_of im);
     quantize := fun im _ _ => Ok (mkPIL (width im) (height im) "P" None (samples im));
     getpalette := fun _ => Some [255; 0; 0; 0; 128; 0; 18; 52; 86];
     getcolors := fun _ => Some [(2, 0); (5, 1); (2, 2)];
     cv2 := qr;
     import_pytesseract := ocr |}.

Definition full : Env := env (Some "PNG") (Some detector) (Ok tesseract).

Definition without_cv2 : Env := env (Some "PNG") None (Ok tesseract).

Definition without_ocr : Env :=
  env (Some "PNG") (Some detector)
      (Raise (ImportError "No module named 'pytesseract'")).

Definition untagged : Env := env None (Some detector) (Ok tesseract).

End Reference.

(* ================================================================== *)
(** ** The specification's vocabulary *)
(* ================================================================== *)

(** The three readings of an image reference, in priority order. *)
Inductive interpretation : Type := AsFile | AsDataURI | AsRawBase64.

Definition priority : list interpretation := [AsFile; AsDataURI; AsRawBase64].

(** When a reading applies to a reference. *)
Definition applies (E : Env) (reference : string) (i : interpretation) : bool :=
  match i with
  | AsFile => path_exists E reference
  | AsDataURI => startswith reference "data:"
  | AsRawBase64 => true
  end.

(** First match wins. *)
Definition chosen (E : Env) (reference : string) : option interpretation :=
  head (List.filter (applies E reference) priority).

(** Everything after the first occurrence of a character, if it occurs. *)
Fixpoint after_first (c : ascii) (s : string) : option string :=
  match s with
  | EmptyString => None
  | String d s' => if Ascii.eqb d c then Some s' else after_first c s'
  end.

(** Base64-decode a payload and decode the bytes as an image container. *)
Definition decode_payload (E : Env) (payload : string) : result PILImage :=
  b64decode E payload ≫= open_bytes E.

(** The strings matched by [#[0-9a-f]{6}]. *)
Definition is_lower_hex (c : ascii) : bool :=
  let n := Z.of_nat (nat_of_ascii c) in
  ((48 <=? n) && (n <=? 57)) || ((97 <=? n) && (n <=? 102)).

Fixpoint all_chars (p : ascii -> bool) (s : string) : bool :=
  match s with
  | EmptyString => true
  | String c s' => p c && all_chars p s'
  end.

Definition is_hex_colour (s : string) : bool :=
  match s with
  | String c digits =>
      Ascii.eqb c "#" && Nat.eqb (String.length digits) 6
      && all_chars is_lower_hex digits
  | EmptyString => false
  end.

(** Exactly two lowercase hexadecimal digits. *)
Definition two_hex_digits (v : Z) : bool :=
  Nat.eqb (String.length (format_02x v)) 2
  && all_chars is_lower_hex (format_02x v).

(** The colour stored in a flat palette at a given index. *)
Definition palette_colour (palette : list Z) (idx : Z) : string :=
  let at_ k := nth (Z.to_nat (idx * 3 + k)) palette 0 in
  String "#" (format_02x (at_ 0) +:+ format_02x (at_ 1) +:+ format_02x (at_ 2)).

(** A flat palette of byte triples that covers every index in use. *)
Definition palette_covers (palette : list Z) (used : list (Z * Z)) : Prop :=
  Forall (fun v => 0 <= v < 256) palette
  /\ Forall (fun t => 0 <= snd t /\ snd t * 3 + 3 <= Z.of_nat (length palette)) used.

(** Largest count first. *)
Definition by_count_desc (a b : Z * Z) : Prop := fst b <= fst a.

(** The non-empty strings of a list, each kept at its first occurrence. *)
Fixpoint first_seen (l : list string) : list string :=
  match l with
  | [] => []
  | s :: l' =>
      if truthy_str s
      then s :: List.filter (fun t => negb (String.eqb t s)) (first_seen l')
      else first_seen l'
  end.

(** What the multi-symbol capability contributes: nothing when the
    detector lacks it. *)
Definition additional (detector : QRCodeDetector) (arr : ndarray)
  : result (list string) :=
  match detectAndDecodeMulti detector with
  | Some multi => decoded_infos ← multi arr; mret (list_or_empty decoded_infos)
  | None => mret []
  end.

(** The dictionary returned by [detect_qr] on success of the detector. *)
Definition qr_result (datas : list string) : gmap string PyVal :=
  <["count" := PyInt (Z.of_nat (length datas))]>
    (<["data" := PyStrList datas]> ∅).

(** The data URI header used by the testable properties. *)
Definition png_uri_header : string := "data:image/png;base64,".

(* ================================================================== *)
(** ** Start-up block *)
(* ================================================================== *)

(** The three fields of [mcp.settings] the start-up block assigns. *)
Record Settings : Type := mkSettings {
  host : string;
  port : Z;
  streamable_http_path : string
}.

(** [s.lower()].  Environment values are byte strings here; the letters
    [A]-[Z] are the only characters whose lowering can produce a letter
    of the three flag literals. *)
Definition lower_char (c : ascii) : ascii :=
  let n := nat_of_ascii c in
  if Nat.leb 65 n && Nat.leb n 90 then ascii_of_nat (n + 32) else c.

Fixpoint str_lower (s : string) : string :=
  match s with
  | EmptyString => EmptyString
  | String c s' => String (lower_char c) (str_lower s')
  end.

(** [os.getenv(key, fallback)] *)
Definition getenv (environ : gmap string string) (key fallback : string) : string :=
  default fallback (environ !! key).

(** The set literal [{"1", "true", "yes"}]. *)
Definition http_flags : gset string := {[ "1"; "true"; "yes" ]}.

(** The [if __name__ == "__main__":] block: the settings and the
    transport [mcp.run] is called with.  [int] is the builtin applied to
    the port variable. *)
Definition main (int : string -> result Z) (environ : gmap string string)
    (settings : Settings) : result (Settings * string) :=
  let transport := "stdio" in
  if bool_decide (str_lower (getenv environ "MCP_HTTP" "0") ∈ http_flags) then
    let transport := "streamable-http" in
    let host' := getenv environ "MCP_HOST" "127.0.0.1" in
    port' ← int (getenv environ "MCP_PORT" "8974");
    let path' := getenv environ "MCP_PATH" "/mcp" in
    mret (mkSettings host' port' path', transport)
  else mret (settings, transport).

(** A reader of unsigned decimal literals, one of the forms [int]
    accepts, for evaluating the start-up block. *)
Fixpoint decimal_loop (s : string) (acc : Z) : result Z :=
  match s with
  | EmptyString => Ok acc
  | String c s' =>
      let n := Z.of_nat (nat_of_ascii c) in
      if (48 <=? n) && (n <=? 57) then decimal_loop s' (acc * 10 + (n - 48))
      else Raise (ValueError "invalid literal for int() with base 10")
  end.

Definition decimal (s : string) : result Z :=
  match s with
  | EmptyString => Raise (ValueError "invalid literal for int() with base 10")
  | _ => decimal_loop s 0
  end.

(* ================================================================== *)
(** ** Further vocabulary *)
(* ================================================================== *)

(** An environment with other optional capabilities and the same
    required engines. *)
Definition with_capabilities (E : Env) (qr : option QRCodeDetector)
    (ocr : result Pytesseract) : Env :=
  {| path_exists := path_exists E;
     b64decode := b64decode E;
     open_path := open_path E;
     open_bytes := open_bytes E;
     copy := copy E;
     convert := convert E;
     ops_grayscale := ops_grayscale E;
     thumbnail := thumbnail E;
     save := save E;
     quantize := quantize E;
     getpalette := getpalette E;
     getcolors := getcolors E;
     cv2 := qr;
     import_pytesseract := ocr |}.

(** The reference environment with the file on disk holding the bytes
    of [Reference.tiny_png]. *)
Definition stored_env : Env :=
  {| path_exists := path_exists Reference.full;
     b64decode := b64decode Reference.full;
     open_path := fun p =>
       if bool_decide (p = Reference.logo_path)
       then Reference.identify (Some "PNG") Reference.tiny_png
       else Raise (OSError "No such file or directory");
     open_bytes := open_bytes Reference.full;
     copy := copy Reference.full;
     convert := convert Reference.full;
     ops_grayscale := ops_grayscale Reference.full;
     thumbnail := thumbnail Reference.full;
     save := save Reference.full;
     quantize := quantize Reference.full;
     getpalette := getpalette Reference.full;
     getcolors := getcolors Reference.full;
     cv2 := cv2 Reference.full;
     import_pytesseract := import_pytesseract Reference.full |}.

(** Reading a colour back from its [#rrggbb] text. *)
Definition hex_value (c : ascii) : option Z := index_of c "0123456789abcdef" 0.

Definition parse_hex_byte (hi lo : ascii) : option Z :=
  h ← hex_value hi; l ← hex_value lo; Some (h * 16 + l).

Definition parse_hex_colour (s : string) : option (Z * Z * Z) :=
  match s with
  | String c0 (String r1 (String r0 (String g1 (String g0
      (String b1 (String b0 EmptyString)))))) =>
      if Ascii.eqb c0 "#" then
        r ← parse_hex_byte r1 r0; g ← parse_hex_byte g1 g0;
        b ← parse_hex_byte b1 b0; Some (r, g, b)
      else None
  | _ => None
  end.

(** The message [ocr_text] returns for a failed import. *)
Definition ocr_unavailable (e : exception) : string :=
  "pytesseract is not installed or Tesseract binary missing: "
  +:+ str_of_exception e
  +:+ ". Install with `pip install pytesseract` and system Tesseract.".

(** The dictionary [detect_qr] returns without the QR engine. *)
Definition qr_unavailable : gmap string PyVal :=
  <["error" := PyStr "OpenCV not available. pip install opencv-python"]>
    (<["count" := PyInt 0]> (<["data" := PyStrList []]> ∅)).

(** The reference environment in which [import pytesseract] succeeds and
    the Tesseract binary is missing: the recognition call raises
    [TesseractNotFoundError], a subclass of [OSError]. *)
Definition without_tesseract_binary : Env :=
  Reference.env (Some "PNG") (Some Reference.detector)
    (Ok (mkTesseract (fun _ _ =>
           Raise (OSError "tesseract is not installed or it's not in your PATH")))).

(* ================================================================== *)
(** ** Auxiliary facts *)
(* ================================================================== *)

Lemma bind_ok {A B} (m : result A) (f : A -> result B) (a : A) :
  m = Ok a -> (m ≫= f) = f a.
Proof. intros ->. reflexivity. Qed.

Lemma bind_raise {A B} (m : result A) (f : A -> result B) (e : exception) :
  m = Raise e -> (m ≫= f) = Raise e.
Proof. intros ->. reflexivity. Qed.

Lemma bind_inv {A B} (m : result A) (f : A -> result B) (b : B) :
  (m ≫= f) = Ok b -> exists a, m = Ok a /\ f a = Ok b.
Proof. destruct m as [a|e]; [eauto | discriminate]. Qed.

(** *** Splitting at the first comma *)

Lemma split1_found (c : ascii) (s payload : string) :
  after_first c s = Some payload -> exists header, split1 c s = [header; payload].
Proof.
  induction s as [|d s IH]; simpl; [discriminate|].
  destruct (Ascii.eqb d c).
  - intros [= <-]. eauto.
  - intros H. destruct (IH H) as [h ->]. eauto.
Qed.

Lemma split1_missing (c : ascii) (s : string) :
  after_first c s = None -> split1 c s = [s].
Proof.
  induction s as [|d s IH]; simpl; [reflexivity|].
  destruct (Ascii.eqb d c); [discriminate|].
  intros H. rewrite (IH H). reflexivity.
Qed.

Lemma after_first_occurs (c : ascii) (s : string) :
  occurs c s = false <-> after_first c s = None.
Proof.
  induction s as [|d s IH]; simpl; [tauto|].
  destruct (Ascii.eqb d c); [split; discriminate | exact IH].
Qed.

Lemma startswith_append (s pre : string) :
  startswith s pre = true -> exists rest, s = pre +:+ rest.
Proof.
  revert s. induction pre as [|p pre IH]; intros [|c s]; cbn [startswith];
    try discriminate; eauto.
  destruct (Ascii.eqb_spec c p) as [->|Hne]; [|done].
  intros H. destruct (IH _ H) as [rest ->]. eauto.
Qed.

Lemma startswith_data_colon (s : string) :
  startswith s "data:" = true -> occurs ":" s = true.
Proof. intros H. destruct (startswith_append _ _ H) as [rest ->]. reflexivity. Qed.

(** *** The resolver, case by case *)

Section Resolver.
Variable E : Env.

Lemma decode_existing (reference : string) :
  path_exists E reference = true ->
  _decode_image_to_pil E reference = open_path E reference.
Proof. unfold _decode_image_to_pil. intros ->. reflexivity. Qed.

Lemma decode_data_uri (reference payload : string) :
  path_exists E reference = false ->
  startswith reference "data:" = true ->
  after_first "," reference = Some payload ->
  _decode_image_to_pil E reference = decode_payload E payload.
Proof.
  unfold _decode_image_to_pil. intros -> -> H.
  destruct (split1_found _ _ _ H) as [h ->]. reflexivity.
Qed.

Lemma decode_data_uri_no_comma (reference : string) :
  path_exists E reference = false ->
  startswith reference "data:" = true ->
  after_first "," reference = None ->
  exists msg, _decode_image_to_pil E reference = Raise (ValueError msg).
Proof.
  unfold _decode_image_to_pil. intros -> -> H.
  rewrite (split1_missing _ _ H). simpl. eauto.
Qed.

Lemma decode_raw (reference : string) :
  path_exists E reference = false ->
  startswith reference "data:" = false ->
  _decode_image_to_pil E reference = decode_payload E reference.
Proof. unfold _decode_image_to_pil. intros -> ->. reflexivity. Qed.

End Resolver.

(* ================================================================== *)
(** ** The image resolver *)
(* ================================================================== *)

(** C1: for every reference string the resolver performs exactly the one
    reading selected by priority (existing path, then the [data:] prefix,
    then raw base64; first match wins): an existing path is opened as an
    image file; a [data:] reference is split at its first comma and the
    part after the comma is base64-decoded and decoded as an image
    container (without a comma the call raises); any other string is
    base64-decoded as a whole and decoded as an image container. *)
Theorem resolve_by_priority (E : Env) (reference : string) :
  match chosen E reference with
  | Some AsFile =>
      _decode_image_to_pil E reference = open_path E reference
  | Some AsDataURI =>
      match after_first "," reference with
      | Some payload =>
          _decode_image_to_pil E reference = decode_payload E payload
      | None =>
          exists msg, _decode_image_to_pil E reference = Raise (ValueError msg)
      end
  | Some AsRawBase64 =>
      _decode_image_to_pil E reference = decode_payload E reference
  | None => False
  end.
Proof.
  unfold chosen, priority. simpl.
  destruct (path_exists E reference) eqn:Hp; simpl.
  - by apply decode_existing.
  - destruct (startswith reference "data:") eqn:Hd; simpl.
    + destruct (after_first "," reference) as [payload|] eqn:Hc.
      * by apply decode_data_uri.
      * by apply decode_data_uri_no_comma.
    + by apply decode_raw.
Qed.

(** C10: a reference that names no filesystem entry, starts with [data:]
    and contains no comma makes the resolver raise (the one-element split
    cannot be unpacked into header and payload), whatever the raw base64
    reading of the string would have produced. *)
Theorem data_uri_without_comma_raises (E : Env) (reference : string) :
  path_exists E reference = false ->
  startswith reference "data:" = true ->
  occurs "," reference = false ->
  exists msg, _decode_image_to_pil E reference = Raise (ValueError msg).
Proof.
  intros Hp Hd Hc. apply decode_data_uri_no_comma; try done.
  by apply after_first_occurs.
Qed.

Lemma data_uri_without_comma_raises_witness :
  path_exists Reference.full "data:image/png;base64" = false
  /\ startswith "data:image/png;base64" "data:" = true
  /\ occurs "," "data:image/png;base64" = false
  /\ exists msg,
       _decode_image_to_pil Reference.full "data:image/png;base64"
       = Raise (ValueError msg).
Proof.
  split; [reflexivity|]. split; [reflexivity|]. split; [reflexivity|].
  apply (data_uri_without_comma_raises Reference.full "data:image/png;base64");
    reflexivity.
Defined.

(** *** Base64 text never looks like a data URI *)

Lemma b64_char_not_colon (d : Z) : Ascii.eqb (b64_char d) ":" = false.
Proof.
  unfold b64_char. generalize (Z.to_nat (Z.land d 63)). intros n.
  do 65 (destruct n as [|n]; [reflexivity|]). reflexivity.
Qed.

Lemma list_ind3 {A} (P : list A -> Prop) :
  P [] -> (forall a, P [a]) -> (forall a b, P [a; b]) ->
  (forall a b c l, P l -> P (a :: b :: c :: l)) ->
  forall l, P l.
Proof.
  intros H0 H1 H2 H3 l.
  enough (P l /\ (forall a, P (a :: l)) /\ (forall a b, P (a :: b :: l))) by tauto.
  induction l as [|x l (IH0 & IH1 & IH2)]; auto.
Qed.

Lemma b64encode_Z_no_colon (bs : list Z) : occurs ":" (b64encode_Z bs) = false.
Proof.
  induction bs as [|a|a b|a b c l IH] using list_ind3;
    cbn [b64encode_Z occurs]; rewrite ?b64_char_not_colon; auto.
Qed.

Lemma b64encode_not_data_uri (B : list Byte.byte) :
  startswith (b64encode B) "data:" = false.
Proof.
  destruct (startswith (b64encode B) "data:") eqn:H; [|reflexivity].
  apply startswith_data_colon in H.
  unfold b64encode in H. by rewrite b64encode_Z_no_colon in H.
Qed.

Lemma after_header (payload : string) :
  after_first "," (png_uri_header +:+ payload) = Some payload.
Proof. reflexivity. Qed.

(** C4: for every byte buffer [B] that is a valid image, resolving the raw
    base64 text of [B] and resolving the data URI made of
    [data:image/png;base64,] followed by that text (neither string naming
    an existing filesystem entry) both succeed, with rasters of the same
    width, height and mode. *)
Theorem raw_and_data_uri_agree (E : Env) (B : list Byte.byte) (im : PILImage) :
  path_exists E (b64encode B) = false ->
  path_exists E (png_uri_header +:+ b64encode B) = false ->
  b64decode E (b64encode B) = Ok B ->
  open_bytes E B = Ok im ->
  exists raw uri : PILImage,
    _decode_image_to_pil E (b64encode B) = Ok raw
    /\ _decode_image_to_pil E (png_uri_header +:+ b64encode B) = Ok uri
    /\ width raw = width uri
    /\ height raw = height uri
    /\ mode raw = mode uri.
Proof.
  intros Hraw Huri Hdec Hopen. exists im, im.
  rewrite (decode_raw E _ Hraw (b64encode_not_data_uri B)).
  rewrite (decode_data_uri E _ _ Huri eq_refl (after_header _)).
  unfold decode_payload. rewrite Hdec. simpl. rewrite Hopen. auto.
Qed.

Lemma raw_and_data_uri_agree_witness :
  exists raw uri : PILImage,
    _decode_image_to_pil Reference.full (b64encode Reference.tiny_png) = Ok raw
    /\ _decode_image_to_pil Reference.full
         (png_uri_header +:+ b64encode Reference.tiny_png) = Ok uri
    /\ width raw = width uri
    /\ height raw = height uri
    /\ mode raw = mode uri.
Proof.
  apply (raw_and_data_uri_agree Reference.full Reference.tiny_png
           (mkPIL 2 1 "RGB" (Some "PNG") [0; 0; 0]));
    vm_compute; reflexivity.
Defined.

(* ================================================================== *)
(** ** Metadata *)
(* ================================================================== *)

(** C8: on a resolvable image whose format tag is missing (or empty),
    [image_info] answers with the literal ["(unknown)"] in its format
    field and with the actual width, height and mode. *)
Theorem image_info_unknown_format (E : Env) (reference : string) (im : PILImage) :
  _decode_image_to_pil E reference = Ok im ->
  format im = None \/ format im = Some EmptyString ->
  exists info : gmap string PyVal,
    image_info E reference = Ok info
    /\ info !! "format" = Some (PyStr "(unknown)")
    /\ info !! "width" = Some (PyInt (width im))
    /\ info !! "height" = Some (PyInt (height im))
    /\ info !! "mode" = Some (PyStr (mode im)).
Proof.
  intros Hdec Hfmt. unfold image_info. rewrite Hdec. simpl.
  eexists. split; [reflexivity|].
  assert (str_or (format im) "(unknown)" = "(unknown)") as ->
    by (destruct Hfmt as [-> | ->]; reflexivity).
  repeat split; reflexivity.
Qed.

Lemma image_info_unknown_format_witness :
  exists info : gmap string PyVal,
    image_info Reference.untagged (b64encode Reference.tiny_png) = Ok info
    /\ info !! "format" = Some (PyStr "(unknown)")
    /\ info !! "width" = Some (PyInt 2)
    /\ info !! "height" = Some (PyInt 1)
    /\ info !! "mode" = Some (PyStr "RGB").
Proof.
  apply (image_info_unknown_format Reference.untagged
           (b64encode Reference.tiny_png) (mkPIL 2 1 "RGB" None [0; 0; 0])).
  - vm_compute. reflexivity.
  - left. reflexivity.
Defined.

(* ================================================================== *)
(** ** Optional capabilities *)
(* ================================================================== *)

(** X25: the two capability guards, for every image reference: when
    [cv2] is [None], [detect_qr] returns [count = 0], [data = []] and an
    error string; when the import of [pytesseract] fails, [ocr_text]
    returns a non-empty explanatory string.  Neither raises. *)
Theorem missing_capability_is_reported (E : Env) (reference lang : string) :
  (cv2 E = None ->
   exists (r : gmap string PyVal) (msg : string),
     detect_qr E reference = Ok r
     /\ r !! "count" = Some (PyInt 0)
     /\ r !! "data" = Some (PyStrList [])
     /\ r !! "error" = Some (PyStr msg)
     /\ msg <> EmptyString)
  /\ (forall e : exception,
        import_pytesseract E = Raise e ->
        exists text : string,
          ocr_text E reference lang = Ok text /\ text <> EmptyString).
Proof.
  split.
  - intros Hcv. unfold detect_qr. rewrite Hcv.
    eexists _, _. split; [reflexivity|]. repeat split; try reflexivity.
    discriminate.
  - intros e He. unfold ocr_text. rewrite He.
    eexists. split; [reflexivity|]. discriminate.
Qed.

Lemma missing_capability_is_reported_witness :
  (exists (r : gmap string PyVal) (msg : string),
     detect_qr Reference.without_cv2 "not an image" = Ok r
     /\ r !! "count" = Some (PyInt 0)
     /\ r !! "data" = Some (PyStrList [])
     /\ r !! "error" = Some (PyStr msg)
     /\ msg <> EmptyString)
  /\ (exists text : string,
        ocr_text Reference.without_ocr "not an image" "eng" = Ok text
        /\ text <> EmptyString).
Proof.
  split.
  - apply (proj1 (missing_capability_is_reported
                    Reference.without_cv2 "not an image" "eng")).
    reflexivity.
  - apply (proj2 (missing_capability_is_reported
                    Reference.without_ocr "not an image" "eng")
             (ImportError "No module named 'pytesseract'")).
    reflexivity.
Defined.

(** C3 fails on the code when the OCR engine is missing in the other way
    the message of [ocr_text] names: with [pytesseract] importable and
    the Tesseract binary absent, the guard around the import is passed
    and the exception of the recognition call leaves [ocr_text], on a
    resolvable image, instead of the explanatory string. *)
Theorem ocr_text_raises_without_binary :
  is_ok (import_pytesseract without_tesseract_binary) = true
  /\ is_ok (_decode_image_to_pil without_tesseract_binary Reference.logo_path) = true
  /\ ocr_text without_tesseract_binary Reference.logo_path "eng"
     = Raise (OSError "tesseract is not installed or it's not in your PATH").
Proof. repeat split; vm_compute; reflexivity. Qed.

(** C9: whenever [detect_qr] returns a dictionary, with or without the
    QR engine, its [count] field is the length of its [data] list. *)
Theorem detect_qr_count_is_length (E : Env) (reference : string)
    (r : gmap string PyVal) :
  detect_qr E reference = Ok r ->
  exists datas : list string,
    r !! "data" = Some (PyStrList datas)
    /\ r !! "count" = Some (PyInt (Z.of_nat (length datas))).
Proof.
  unfold detect_qr. destruct (cv2 E) as [detector|].
  - intros H.
    apply bind_inv in H as (im0 & _ & H).
    apply bind_inv in H as (im & _ & H).
    apply bind_inv in H as (single & _ & H).
    apply bind_inv in H as (datas & _ & H).
    injection H as <-. exists datas. split; reflexivity.
  - intros [= <-]. exists []. split; reflexivity.
Qed.

Lemma detect_qr_count_is_length_witness :
  exists datas : list string,
    qr_result ["HELLO"; "WORLD"; "jawz"] !! "data" = Some (PyStrList datas)
    /\ qr_result ["HELLO"; "WORLD"; "jawz"] !! "count"
       = Some (PyInt (Z.of_nat (length datas))).
Proof.
  apply (detect_qr_count_is_length Reference.full
           (b64encode Reference.tiny_png)).
  vm_compute. reflexivity.
Defined.

(* ================================================================== *)
(** ** Unresolvable references *)
(* ================================================================== *)

(** C2, as stated, fails for the two tools guarded by a capability check:
    when [cv2] is [None], [detect_qr] answers a reference that cannot be
    resolved with its empty result, and when the import of [pytesseract]
    fails, [ocr_text] answers it with its explanatory text; neither
    resolves the reference. *)
Lemma unresolvable_reference_accepted_without_capability :
  _decode_image_to_pil Reference.without_cv2 "not an image"
  = Raise (BinasciiError "Incorrect padding")
  /\ detect_qr Reference.without_cv2 "not an image"
     = Ok (<["error" := PyStr "OpenCV not available. pip install opencv-python"]>
           (<["count" := PyInt 0]> (<["data" := PyStrList []]> ∅)))
  /\ _decode_image_to_pil Reference.without_ocr "not an image"
     = Raise (BinasciiError "Incorrect padding")
  /\ is_ok (ocr_text Reference.without_ocr "not an image" "eng") = true.
Proof. repeat split; vm_compute; reflexivity. Qed.

(** C2, amended: when the resolver fails on a reference, every tool
    fails with the resolver's exception, unchanged, except behind the two
    capability guards that run before the resolver: [image_info],
    [grayscale], [resize] and [dominant_colors] always fail; [detect_qr]
    fails when [cv2] is present and returns its error dictionary when
    [cv2] is [None]; [ocr_text] fails when [pytesseract] imports (with or
    without the Tesseract binary) and returns its explanatory message
    when the import fails. *)
Theorem unresolvable_reference_fails (E : Env) (reference : string) (e : exception) :
  _decode_image_to_pil E reference = Raise e ->
  image_info E reference = Raise e
  /\ grayscale E reference = Raise e
  /\ (forall max_w max_h, resize E reference max_w max_h = Raise e)
  /\ (forall colors, dominant_colors E reference colors = Raise e)
  /\ (cv2 E <> None -> detect_qr E reference = Raise e)
  /\ (cv2 E = None -> detect_qr E reference = Ok qr_unavailable)
  /\ (is_ok (import_pytesseract E) = true ->
      forall lang, ocr_text E reference lang = Raise e)
  /\ (forall e' : exception,
        import_pytesseract E = Raise e' ->
        forall lang, ocr_text E reference lang = Ok (ocr_unavailable e')).
Proof.
  intros H.
  unfold image_info, grayscale, resize, dominant_colors, detect_qr, ocr_text.
  rewrite H. repeat split; try reflexivity.
  - destruct (cv2 E); [reflexivity | congruence].
  - by intros ->.
  - destruct (import_pytesseract E); [reflexivity | discriminate].
  - by intros e' ->.
Qed.

Lemma unresolvable_reference_fails_witness :
  let e := BinasciiError "Incorrect padding" in
  image_info without_tesseract_binary "not an image" = Raise e
  /\ grayscale without_tesseract_binary "not an image" = Raise e
  /\ (forall max_w max_h,
        resize without_tesseract_binary "not an image" max_w max_h = Raise e)
  /\ (forall colors,
        dominant_colors without_tesseract_binary "not an image" colors = Raise e)
  /\ (cv2 without_tesseract_binary <> None
      -> detect_qr without_tesseract_binary "not an image" = Raise e)
  /\ (cv2 without_tesseract_binary = None
      -> detect_qr without_tesseract_binary "not an image" = Ok qr_unavailable)
  /\ (is_ok (import_pytesseract without_tesseract_binary) = true ->
      forall lang, ocr_text without_tesseract_binary "not an image" lang = Raise e)
  /\ (forall e' : exception,
        import_pytesseract without_tesseract_binary = Raise e' ->
        forall lang,
          ocr_text without_tesseract_binary "not an image" lang
          = Ok (ocr_unavailable e')).
Proof.
  apply (unresolvable_reference_fails without_tesseract_binary "not an image").
  vm_compute. reflexivity.
Defined.

(* ================================================================== *)
(** ** QR detection *)
(* ================================================================== *)

Lemma filter_filter_bool {A} (p q : A -> bool) (l : list A) :
  List.filter p (List.filter q l) = List.filter (fun x => q x && p x) l.
Proof.
  induction l as [|x l IH]; simpl; [reflexivity|].
  destruct (q x); simpl; [destruct (p x)|]; by rewrite IH.
Qed.

Lemma string_eqb_decide (t s : string) (l : list string) :
  bool_decide (t ∈ l ++ [s]) = bool_decide (t ∈ l) || String.eqb t s.
Proof.
  destruct (String.eqb_spec t s) as [->|Hne].
  - rewrite orb_true_r. apply bool_decide_eq_true.
    rewrite elem_of_app, list_elem_of_singleton. by right.
  - rewrite orb_false_r. apply bool_decide_ext.
    rewrite elem_of_app, list_elem_of_singleton. tauto.
Qed.

(** The loop of [detect_qr] appends to [datas] the first occurrences of
    the non-empty strings that [datas] does not hold yet. *)
Lemma merge_loop (l datas : list string) :
  foldl merge_step datas l
  = datas ++ List.filter (fun t => negb (bool_decide (t ∈ datas))) (first_seen l).
Proof.
  revert datas. induction l as [|s l IH]; intros datas; simpl.
  - by rewrite app_nil_r.
  - unfold merge_step at 2. destruct (truthy_str s); simpl.
    + destruct (bool_decide (s ∈ datas)) eqn:Hin; simpl; rewrite IH.
      * f_equal. rewrite filter_filter_bool. apply List.filter_ext_in.
        intros t _. destruct (String.eqb_spec t s) as [->|]; simpl; [|done].
        by rewrite Hin.
      * rewrite <- app_assoc. simpl. do 2 f_equal.
        rewrite filter_filter_bool. apply List.filter_ext.
        intros t. rewrite string_eqb_decide.
        destruct (bool_decide (t ∈ datas)), (String.eqb t s); reflexivity.
    + apply IH.
Qed.

Lemma first_seen_elem (l : list string) (s : string) :
  s ∈ first_seen l <-> s <> EmptyString /\ s ∈ l.
Proof.
  induction l as [|x l IH]; simpl.
  - rewrite elem_of_nil. tauto.
  - destruct x as [|c x]; simpl.
    + rewrite IH, elem_of_cons. split; [tauto|].
      intros [Hs [->|?]]; [done | tauto].
    + rewrite elem_of_cons, list_elem_of_In, List.filter_In, <- list_elem_of_In, IH.
      rewrite elem_of_cons.
      destruct (String.eqb_spec s (String c x)) as [->|Hne]; simpl.
      * split; [intros _; split; [discriminate | by left] | by left].
      * split.
        -- intros [?|[[? ?] _]]; [done | split; [done | by right]].
        -- intros [? [?|?]]; [done | right; repeat split; done].
Qed.

Lemma first_seen_NoDup (l : list string) : NoDup (first_seen l).
Proof.
  induction l as [|x l IH]; simpl; [constructor|].
  destruct x as [|c x]; simpl; [done|].
  constructor.
  - rewrite list_elem_of_In, List.filter_In. intros [_ H].
    by rewrite String.eqb_refl in H.
  - apply NoDup_ListNoDup, List.NoDup_filter. by apply NoDup_ListNoDup.
Qed.

Lemma filter_sublist {A} (p : A -> bool) (l : list A) :
  List.filter p l `sublist_of` l.
Proof.
  induction l as [|x l IH]; simpl; [done|].
  destruct (p x); by constructor.
Qed.

Lemma first_seen_sublist (l : list string) : first_seen l `sublist_of` l.
Proof.
  induction l as [|x l IH]; simpl; [done|].
  destruct (truthy_str x).
  - constructor. etrans; [apply filter_sublist | done].
  - by constructor.
Qed.

Lemma first_seen_single (single : string) (extra : list string) :
  foldl merge_step (if truthy_str single then [single] else []) extra
  = first_seen (single :: extra).
Proof.
  rewrite merge_loop. simpl. destruct (truthy_str single); simpl.
  - f_equal. apply List.filter_ext. intros t.
    change [single] with ([] ++ [single]). rewrite string_eqb_decide.
    reflexivity.
  - induction (first_seen extra) as [|x xs IH]; simpl; [done|]. by rewrite IH.
Qed.

(** C7: with the QR engine available, [detect_qr] returns as [data] the
    non-empty strings among the direct decode followed by the strings of
    the multi-symbol capability (none when the detector lacks it), each
    at its first occurrence: the direct decode comes first when it is not
    empty, no string is empty and no string occurs twice. *)
Theorem detect_qr_first_seen (E : Env) (reference : string)
    (detector : QRCodeDetector) (im0 im : PILImage)
    (single : string) (extra : list string) :
  cv2 E = Some detector ->
  _decode_image_to_pil E reference = Ok im0 ->
  convert E im0 "RGB" = Ok im ->
  detectAndDecode detector (np_array im) = Ok single ->
  additional detector (np_array im) = Ok extra ->
  exists datas : list string,
    detect_qr E reference = Ok (qr_result datas)
    /\ datas = first_seen (single :: extra)
    /\ first_seen [single] `prefix_of` datas
    /\ datas `sublist_of` (single :: extra)
    /\ NoDup datas
    /\ (EmptyString ∉ datas)
    /\ (forall s, s ∈ datas <-> s <> EmptyString /\ s ∈ single :: extra).
Proof.
  intros Hcv Hdec Hconv Hsingle Hextra.
  exists (first_seen (single :: extra)). split; [|split; [reflexivity|]].
  - rewrite <- first_seen_single.
    unfold detect_qr. rewrite Hcv, Hdec. simpl. rewrite Hconv. simpl.
    rewrite Hsingle. simpl. unfold additional in Hextra.
    destruct (detectAndDecodeMulti detector) as [multi|].
    + destruct (multi (np_array im)) as [infos|]; [|discriminate].
      by injection Hextra as <-.
    + by injection Hextra as <-.
  - split; [|split; [apply first_seen_sublist|split; [apply first_seen_NoDup|]]].
    + simpl. destruct (truthy_str single); simpl.
      * by eexists.
      * apply prefix_nil.
    + split; [|apply first_seen_elem].
      rewrite first_seen_elem. by intros [? _].
Qed.

Lemma detect_qr_first_seen_witness :
  exists datas : list string,
    detect_qr Reference.full (b64encode Reference.tiny_png) = Ok (qr_result datas)
    /\ datas = first_seen ["HELLO"; "HELLO"; ""; "WORLD"; "WORLD"; "jawz"]
    /\ first_seen ["HELLO"] `prefix_of` datas
    /\ datas `sublist_of` ["HELLO"; "HELLO"; ""; "WORLD"; "WORLD"; "jawz"]
    /\ NoDup datas
    /\ (EmptyString ∉ datas)
    /\ (forall s, s ∈ datas
        <-> s <> EmptyString
            /\ s ∈ ["HELLO"; "HELLO"; ""; "WORLD"; "WORLD"; "jawz"]).
Proof.
  apply (detect_qr_first_seen Reference.full (b64encode Reference.tiny_png)
           Reference.detector
           (mkPIL 2 1 "RGB" (Some "PNG") [0; 0; 0])
           (mkPIL 2 1 "RGB" None [0; 0; 0]));
    vm_compute; reflexivity.
Defined.

(* ================================================================== *)
(** ** Dominant colours *)
(* ================================================================== *)

(** *** Two lowercase hexadecimal digits per byte *)

Lemma string_length_append (a b : string) :
  String.length (a +:+ b) = (String.length a + String.length b)%nat.
Proof. induction a as [|c a IH]; simpl; [reflexivity | by rewrite IH]. Qed.

Lemma all_chars_append (p : ascii -> bool) (a b : string) :
  all_chars p (a +:+ b) = all_chars p a && all_chars p b.
Proof.
  induction a as [|c a IH]; simpl; [reflexivity|].
  by rewrite IH, andb_assoc.
Qed.

Lemma format_02x_byte (v : Z) :
  0 <= v < 256 -> two_hex_digits v = true.
Proof.
  intros Hv.
  assert (Hall : forallb (fun n => two_hex_digits (Z.of_nat n)) (seq 0 256) = true)
    by (vm_compute; reflexivity).
  rewrite forallb_forall in Hall.
  rewrite <- (Z2Nat.id v) by lia. apply Hall, in_seq. lia.
Qed.

Lemma palette_colour_hex (palette : list Z) (idx : Z) :
  Forall (fun v => 0 <= v < 256) palette ->
  0 <= idx -> idx * 3 + 3 <= Z.of_nat (length palette) ->
  is_hex_colour (palette_colour palette idx) = true.
Proof.
  intros Hpal H0 Hlen.
  assert (Hnth : forall k, 0 <= k < 3 ->
            two_hex_digits (nth (Z.to_nat (idx * 3 + k)) palette 0) = true).
  { intros k Hk. apply format_02x_byte.
    rewrite Forall_forall in Hpal. apply Hpal, list_elem_of_In, nth_In. lia. }
  pose proof (Hnth 0 ltac:(lia)) as H1.
  pose proof (Hnth 1 ltac:(lia)) as H2.
  pose proof (Hnth 2 ltac:(lia)) as H3.
  unfold two_hex_digits in *.
  apply andb_true_iff in H1 as [L1 C1], H2 as [L2 C2], H3 as [L3 C3].
  apply Nat.eqb_eq in L1, L2, L3.
  unfold palette_colour, is_hex_colour.
  rewrite !string_length_append, !all_chars_append, L1, L2, L3, C1, C2, C3.
  reflexivity.
Qed.

(** *** Slices *)

Lemma slice_prefix {A} (l : list A) (n : Z) :
  0 <= n -> slice l 0 n = take (Z.to_nat n) l.
Proof.
  intros Hn. unfold slice.
  replace (0 <? 0) with false by reflexivity.
  replace (n <? 0) with false by (symmetry; apply Z.ltb_ge; lia).
  rewrite (Z.min_l 0) by lia. rewrite Z.sub_0_r.
  change (Z.to_nat 0) with 0%nat. rewrite drop_0.
  destruct (Z.le_ge_cases n (Z.of_nat (length l))).
  - by rewrite Z.min_l.
  - rewrite Z.min_r, Nat2Z.id by done.
    rewrite !take_ge by lia. done.
Qed.

Lemma take3_drop {A} (d : A) (l : list A) (k : nat) :
  (k + 3 <= length l)%nat ->
  take 3 (drop k l) = [nth k l d; nth (k + 1) l d; nth (k + 2) l d].
Proof.
  revert l. induction k as [|k IH]; intros l Hl.
  - destruct l as [|a [|b [|c l]]]; simpl in *; try lia. reflexivity.
  - destruct l as [|a l]; simpl in *; [lia|]. apply IH. lia.
Qed.

Lemma slice_triple (palette : list Z) (idx : Z) :
  0 <= idx -> idx * 3 + 3 <= Z.of_nat (length palette) ->
  slice palette (idx * 3) (idx * 3 + 3)
  = [nth (Z.to_nat (idx * 3 + 0)) palette 0;
     nth (Z.to_nat (idx * 3 + 1)) palette 0;
     nth (Z.to_nat (idx * 3 + 2)) palette 0].
Proof.
  intros H0 Hlen. unfold slice.
  replace (idx * 3 <? 0) with false by (symmetry; apply Z.ltb_ge; lia).
  replace (idx * 3 + 3 <? 0) with false by (symmetry; apply Z.ltb_ge; lia).
  rewrite !Z.min_l by lia.
  replace (Z.to_nat (idx * 3 + 3 - idx * 3)) with 3%nat by lia.
  rewrite (take3_drop 0) by lia.
  repeat f_equal; lia.
Qed.

Lemma hex_of_entry_ok (palette : list Z) (t : Z * Z) :
  0 <= snd t -> snd t * 3 + 3 <= Z.of_nat (length palette) ->
  hex_of_entry palette t = Ok (palette_colour palette (snd t)).
Proof.
  intros H0 Hlen. unfold hex_of_entry.
  rewrite slice_triple by done. reflexivity.
Qed.

Lemma for_each_ok {A B} (f : A -> result B) (g : A -> B) (l : list A) :
  Forall (fun x => f x = Ok (g x)) l -> for_each f l = Ok (g <$> l).
Proof.
  induction 1 as [|x l Hx _ IH]; simpl; [reflexivity|].
  rewrite Hx. simpl. rewrite IH. reflexivity.
Qed.

(** *** The stable descending sort *)

Lemma insert_desc_perm {A} (x : Z * A) (l : list (Z * A)) :
  insert_desc x l ≡ₚ x :: l.
Proof.
  induction l as [|y l IH]; simpl; [done|].
  destruct (fst y <=? fst x); [done|].
  rewrite IH. apply Permutation_swap.
Qed.

Lemma sorted_desc_perm {A} (l : list (Z * A)) : sorted_desc l ≡ₚ l.
Proof.
  induction l as [|x l IH]; simpl; [done|].
  by rewrite insert_desc_perm, IH.
Qed.

Lemma insert_desc_hd (a x : Z * Z) (l : list (Z * Z)) :
  by_count_desc a x -> HdRel by_count_desc a l ->
  HdRel by_count_desc a (insert_desc x l).
Proof.
  intros Hax Hal. destruct l as [|y l]; simpl; [by constructor|].
  destruct (fst y <=? fst x); constructor; [done|].
  by inversion Hal.
Qed.

Lemma insert_desc_sorted (x : Z * Z) (l : list (Z * Z)) :
  Sorted by_count_desc l -> Sorted by_count_desc (insert_desc x l).
Proof.
  induction 1 as [|y l Hl IH Hy]; simpl.
  - by repeat constructor.
  - destruct (Z.leb_spec (fst y) (fst x)).
    + repeat constructor; done.
    + constructor; [done|]. apply insert_desc_hd; [|done].
      unfold by_count_desc. lia.
Qed.

Lemma sorted_desc_sorted (l : list (Z * Z)) :
  StronglySorted by_count_desc (sorted_desc l).
Proof.
  apply Sorted_StronglySorted.
  - intros a b c. unfold by_count_desc. lia.
  - induction l as [|x l IH]; simpl; [constructor|].
    by apply insert_desc_sorted.
Qed.

(** C6: on a resolvable image and for every integer [colors], once the
    image has been converted to [RGB] and quantized by median cut to
    [max(1, colors)] colours, [dominant_colors] returns the colours of the
    [max(1, colors)] most frequent palette entries in use, most frequent
    first: at most [max(1, colors)] strings (fewer when fewer entries are
    in use), each of the form [#rrggbb] in lowercase hexadecimal. *)
Theorem dominant_colors_top (E : Env) (reference : string) (colors : Z)
    (im0 im q : PILImage) :
  _decode_image_to_pil E reference = Ok im0 ->
  convert E im0 "RGB" = Ok im ->
  quantize E im (Z.max 1 colors) MEDIANCUT = Ok q ->
  palette_covers (list_or_empty (getpalette E q)) (list_or_empty (getcolors E q)) ->
  let palette := list_or_empty (getpalette E q) in
  let used := list_or_empty (getcolors E q) in
  exists (top rest : list (Z * Z)) (hexes : list string),
    dominant_colors E reference colors = Ok (<["colors" := PyStrList hexes]> ∅)
    /\ hexes = (fun t => palette_colour palette (snd t)) <$> top
    /\ top ++ rest ≡ₚ used
    /\ StronglySorted by_count_desc (top ++ rest)
    /\ Z.of_nat (length hexes) = Z.min (Z.max 1 colors) (Z.of_nat (length used))
    /\ Z.of_nat (length hexes) <= Z.max 1 colors
    /\ Forall (fun h => is_hex_colour h = true) hexes.
Proof.
  intros Hdec Hconv Hq [Hbytes Hidx] palette used.
  set (n := Z.to_nat (Z.max 1 colors)).
  exists (take n (sorted_desc used)), (drop n (sorted_desc used)).
  eexists. split; [|split; [reflexivity|]].
  - unfold dominant_colors. rewrite Hdec. simpl. rewrite Hconv. simpl.
    rewrite Hq. simpl. fold palette used.
    assert (Hloop :
      for_each (hex_of_entry palette) (slice (sorted_desc used) 0 (Z.max 1 colors))
      = Ok ((fun t => palette_colour palette (snd t)) <$> take n (sorted_desc used))).
    { rewrite slice_prefix by lia. apply for_each_ok.
      apply Forall_forall. intros t Ht.
      apply elem_of_take in Ht as (i & Ht & _).
      apply list_elem_of_lookup_2 in Ht. rewrite sorted_desc_perm in Ht.
      fold used in Hidx. rewrite Forall_forall in Hidx.
      destruct (Hidx t Ht) as [H0 H3]. by apply hex_of_entry_ok. }
    assert (Hskip :
      truthy_list (getcolors E q) && truthy_list (getpalette E q) = false ->
      take n (sorted_desc used) = []).
    { subst used palette.
      destruct (getcolors E q) as [[|u us]|]; simpl; try (by rewrite take_nil).
      destruct (getpalette E q) as [[|p ps]|]; simpl; try discriminate;
        intros _; simpl in Hidx;
        apply Forall_cons_1 in Hidx as [[? ?] _]; simpl in *; lia. }
    rewrite Hloop.
    destruct (truthy_list (getcolors E q) && truthy_list (getpalette E q));
      [reflexivity|].
    rewrite Hskip by done. reflexivity.
  - rewrite take_drop. split; [apply sorted_desc_perm|].
    split; [apply sorted_desc_sorted|].
    rewrite length_fmap, length_take.
    pose proof (Permutation_length (sorted_desc_perm used)) as Hlen.
    rewrite Hlen. split; [lia|]. split; [lia|].
    apply Forall_fmap, Forall_forall. intros t Ht. simpl.
    apply elem_of_take in Ht as (i & Ht & _).
    apply list_elem_of_lookup_2 in Ht. rewrite sorted_desc_perm in Ht.
    fold used in Hidx. rewrite Forall_forall in Hidx.
    destruct (Hidx t Ht) as [H0 H3]. by apply palette_colour_hex.
Qed.

Lemma dominant_colors_top_witness :
  exists (top rest : list (Z * Z)) (hexes : list string),
    dominant_colors Reference.full (b64encode Reference.tiny_png) 2
    = Ok (<["colors" := PyStrList hexes]> ∅)
    /\ hexes = (fun t => palette_colour [255; 0; 0; 0; 128; 0; 18; 52; 86] (snd t)) <$> top
    /\ top ++ rest ≡ₚ [(2, 0); (5, 1); (2, 2)]
    /\ StronglySorted by_count_desc (top ++ rest)
    /\ Z.of_nat (length hexes) = Z.min (Z.max 1 2) 3
    /\ Z.of_nat (length hexes) <= Z.max 1 2
    /\ Forall (fun h => is_hex_colour h = true) hexes.
Proof.
  apply (dominant_colors_top Reference.full (b64encode Reference.tiny_png) 2
           (mkPIL 2 1 "RGB" (Some "PNG") [0; 0; 0])
           (mkPIL 2 1 "RGB" None [0; 0; 0])
           (mkPIL 2 1 "P" None [0; 0; 0])).
  - vm_compute. reflexivity.
  - reflexivity.
  - reflexivity.
  - split; simpl; repeat constructor; simpl; lia.
Defined.

(* ================================================================== *)
(** ** Re-encoded payloads *)
(* ================================================================== *)

(** Whatever the input format, a payload returned by [grayscale] or
    [resize] is declared as [png] and holds what the codec wrote for the
    [PNG] format. *)
Lemma payloads_are_png (E : Env) (reference : string) (max_w max_h : Z) (out : Image) :
  grayscale E reference = Ok out \/ resize E reference max_w max_h = Ok out ->
  image_format out = "png"
  /\ exists im : PILImage, save E im "PNG" = Ok (data out).
Proof.
  unfold grayscale, resize. intros [H|H].
  - apply bind_inv in H as (im0 & _ & H).
    apply bind_inv in H as (g & _ & H).
    apply bind_inv in H as (buf & Hsave & H).
    injection H as <-. eauto.
  - apply bind_inv in H as (im0 & _ & H).
    apply bind_inv in H as (im & _ & H).
    apply bind_inv in H as (im' & _ & H).
    apply bind_inv in H as (buf & Hsave & H).
    injection H as <-. eauto.
Qed.

(* ================================================================== *)
(** ** The reference decoder inverts the encoder *)
(* ================================================================== *)

Lemma b64_char_not_pad (d : Z) : Ascii.eqb (b64_char d) "=" = false.
Proof.
  unfold b64_char. generalize (Z.to_nat (Z.land d 63)). intros n.
  do 65 (destruct n as [|n]; [reflexivity|]). reflexivity.
Qed.

Lemma b64_char_ascii (d : Z) :
  (Z.of_nat (nat_of_ascii (b64_char d)) <? 128) = true.
Proof.
  unfold b64_char. generalize (Z.to_nat (Z.land d 63)). intros n.
  do 65 (destruct n as [|n]; [reflexivity|]). reflexivity.
Qed.

Lemma land_63_bound (d : Z) : 0 <= Z.land d 63 < 64.
Proof.
  change 63 with (Z.ones 6). rewrite Z.land_ones by lia.
  apply Z.mod_pos_bound. lia.
Qed.

Lemma b64_value_char (d : Z) : b64_value (b64_char d) = Some (Z.land d 63).
Proof.
  pose proof (land_63_bound d) as Hd.
  unfold b64_char. rewrite <- (Z2Nat.id (Z.land d 63)) at 2 by lia.
  assert (Hn : (Z.to_nat (Z.land d 63) < 64)%nat) by lia.
  revert Hn. generalize (Z.to_nat (Z.land d 63)). intros n Hn.
  do 64 (destruct n as [|n]; [reflexivity|]). lia.
Qed.

(** One step of the decoder on a character of the alphabet. *)
Lemma a2b_base64_char (d : Z) (s : string) (quad_pos leftchar pads : Z) :
  a2b_base64 (String (b64_char d) s) quad_pos leftchar pads
  = let v := Z.land d 63 in
    if quad_pos =? 0 then a2b_base64 s 1 v 0
    else if quad_pos =? 1 then
      rest ← a2b_base64 s 2 (Z.land v 15) 0;
      mret (byte_of_Z (Z.lor (Z.shiftl leftchar 2) (Z.shiftr v 4)) :: rest)
    else if quad_pos =? 2 then
      rest ← a2b_base64 s 3 (Z.land v 3) 0;
      mret (byte_of_Z (Z.lor (Z.shiftl leftchar 4) (Z.shiftr v 2)) :: rest)
    else
      rest ← a2b_base64 s 0 0 0;
      mret (byte_of_Z (Z.lor (Z.shiftl leftchar 6) v) :: rest).
Proof.
  cbn [a2b_base64]. rewrite b64_char_not_pad, b64_value_char. reflexivity.
Qed.

(** Exhaustive checks over one and two bytes. *)
Lemma for_all_bytes2 (P : Z -> Z -> bool) :
  forallb (fun a => forallb (fun b => P (Z.of_nat a) (Z.of_nat b)) (seq 0 256))
    (seq 0 256) = true ->
  forall a b, 0 <= a < 256 -> 0 <= b < 256 -> P a b = true.
Proof.
  intros H a b Ha Hb. rewrite forallb_forall in H.
  specialize (H (Z.to_nat a)). rewrite forallb_forall in H.
  rewrite <- (Z2Nat.id a), <- (Z2Nat.id b) by lia.
  apply H; apply in_seq; lia.
Qed.

Lemma byte_of_Z_land (x y : Z) :
  (Z.land x 255 =? Z.land y 255) = true -> byte_of_Z x = byte_of_Z y.
Proof. unfold byte_of_Z. intros H%Z.eqb_eq. by rewrite H. Qed.

Lemma byte_of_Z_of_byte (b : Byte.byte) : byte_of_Z (Z_of_byte b) = b.
Proof. destruct b; reflexivity. Qed.

Lemma Z_of_byte_range (b : Byte.byte) : 0 <= Z_of_byte b < 256.
Proof. destruct b; vm_compute; split; congruence. Qed.

(** The sextets of a group of three bytes, as the encoder cuts them. *)
Lemma first_byte (a b : Z) :
  0 <= a < 256 -> 0 <= b < 256 ->
  byte_of_Z (Z.lor (Z.shiftl (Z.land (Z.shiftr a 2) 63) 2)
               (Z.shiftr (Z.land (Z.lor (Z.shiftl (Z.land a 3) 4) (Z.shiftr b 4)) 63) 4))
  = byte_of_Z a.
Proof.
  intros Ha Hb. apply byte_of_Z_land.
  revert a b Ha Hb. apply for_all_bytes2. vm_compute. reflexivity.
Qed.

Lemma second_left (a b : Z) :
  0 <= a < 256 -> 0 <= b < 256 ->
  Z.land (Z.land (Z.lor (Z.shiftl (Z.land a 3) 4) (Z.shiftr b 4)) 63) 15
  = Z.shiftr b 4.
Proof.
  intros Ha Hb. apply Z.eqb_eq.
  revert a b Ha Hb. apply for_all_bytes2. vm_compute. reflexivity.
Qed.

Lemma second_byte (b c : Z) :
  0 <= b < 256 -> 0 <= c < 256 ->
  byte_of_Z (Z.lor (Z.shiftl (Z.shiftr b 4) 4)
               (Z.shiftr (Z.land (Z.lor (Z.shiftl (Z.land b 15) 2) (Z.shiftr c 6)) 63) 2))
  = byte_of_Z b.
Proof.
  intros Hb Hc. apply byte_of_Z_land.
  revert b c Hb Hc. apply for_all_bytes2. vm_compute. reflexivity.
Qed.

Lemma third_byte (b c : Z) :
  0 <= b < 256 -> 0 <= c < 256 ->
  byte_of_Z (Z.lor (Z.shiftl
                      (Z.land (Z.land (Z.lor (Z.shiftl (Z.land b 15) 2) (Z.shiftr c 6)) 63) 3) 6)
               (Z.land (Z.land c 63) 63))
  = byte_of_Z c.
Proof.
  intros Hb Hc. apply byte_of_Z_land.
  revert b c Hb Hc. apply for_all_bytes2. vm_compute. reflexivity.
Qed.

Lemma a2b_base64_q0 (d : Z) (s : string) (leftchar pads : Z) :
  a2b_base64 (String (b64_char d) s) 0 leftchar pads
  = a2b_base64 s 1 (Z.land d 63) 0.
Proof. by rewrite a2b_base64_char. Qed.

Lemma a2b_base64_q1 (d : Z) (s : string) (leftchar pads : Z) :
  a2b_base64 (String (b64_char d) s) 1 leftchar pads
  = rest ← a2b_base64 s 2 (Z.land (Z.land d 63) 15) 0;
    mret (byte_of_Z (Z.lor (Z.shiftl leftchar 2) (Z.shiftr (Z.land d 63) 4)) :: rest).
Proof. by rewrite a2b_base64_char. Qed.

Lemma a2b_base64_q2 (d : Z) (s : string) (leftchar pads : Z) :
  a2b_base64 (String (b64_char d) s) 2 leftchar pads
  = rest ← a2b_base64 s 3 (Z.land (Z.land d 63) 3) 0;
    mret (byte_of_Z (Z.lor (Z.shiftl leftchar 4) (Z.shiftr (Z.land d 63) 2)) :: rest).
Proof. by rewrite a2b_base64_char. Qed.

Lemma a2b_base64_q3 (d : Z) (s : string) (leftchar pads : Z) :
  a2b_base64 (String (b64_char d) s) 3 leftchar pads
  = rest ← a2b_base64 s 0 0 0;
    mret (byte_of_Z (Z.lor (Z.shiftl leftchar 6) (Z.land d 63)) :: rest).
Proof. by rewrite a2b_base64_char. Qed.

Lemma a2b_base64_encode (zs : list Z) :
  Forall (fun z => 0 <= z < 256) zs ->
  a2b_base64 (b64encode_Z zs) 0 0 0 = Ok (byte_of_Z <$> zs).
Proof.
  induction zs as [|a|a b|a b c l IH] using list_ind3; intros Hzs.
  - reflexivity.
  - apply Forall_cons_1 in Hzs as [Ha _].
    cbn [b64encode_Z]. rewrite a2b_base64_q0, a2b_base64_q1.
    pose proof (first_byte a 0 Ha ltac:(lia)) as H1.
    change (Z.shiftr 0 4) with 0 in H1. rewrite Z.lor_0_r in H1.
    cbn. by rewrite H1.
  - apply Forall_cons_1 in Hzs as [Ha Hzs].
    apply Forall_cons_1 in Hzs as [Hb _].
    cbn [b64encode_Z]. rewrite a2b_base64_q0, a2b_base64_q1, a2b_base64_q2.
    rewrite second_left, first_byte by done.
    pose proof (second_byte b 0 Hb ltac:(lia)) as H2.
    change (Z.shiftr 0 6) with 0 in H2. rewrite Z.lor_0_r in H2.
    cbn. by rewrite H2.
  - apply Forall_cons_1 in Hzs as [Ha Hzs].
    apply Forall_cons_1 in Hzs as [Hb Hzs].
    apply Forall_cons_1 in Hzs as [Hc Hzs].
    cbn [b64encode_Z].
    rewrite a2b_base64_q0, a2b_base64_q1, a2b_base64_q2, a2b_base64_q3.
    rewrite second_left, first_byte, second_byte, third_byte by done.
    rewrite (IH Hzs). reflexivity.
Qed.

Lemma b64encode_Z_ascii (zs : list Z) : is_ascii_str (b64encode_Z zs) = true.
Proof.
  induction zs as [|a|a b|a b c l IH] using list_ind3;
    cbn [b64encode_Z is_ascii_str]; rewrite ?b64_char_ascii; auto.
Qed.

(** On the text produced by the encoder the reference decoder returns
    the encoded buffer. *)
Lemma py_b64decode_b64encode (B : list Byte.byte) :
  py_b64decode (b64encode B) = Ok B.
Proof.
  unfold py_b64decode, b64encode. rewrite b64encode_Z_ascii.
  rewrite a2b_base64_encode.
  - f_equal. rewrite <- list_fmap_compose.
    rewrite <- (list_fmap_id B) at 2. apply list_fmap_ext.
    intros _ b _. apply byte_of_Z_of_byte.
  - apply Forall_fmap, Forall_forall. intros b _. apply Z_of_byte_range.
Qed.

(* ================================================================== *)
(** ** Further properties of the resolver *)
(* ================================================================== *)

Lemma startswith_extends (s rest pre : string) :
  startswith s pre = true -> startswith (s +:+ rest) pre = true.
Proof.
  revert s. induction pre as [|p pre IH]; intros s.
  - intros _. by destruct (s +:+ rest).
  - destruct s as [|c s]; [done|].
    change (String c s +:+ rest) with (String c (s +:+ rest)).
    cbn [startswith]. destruct (Ascii.eqb c p); [apply IH | done].
Qed.

Lemma after_first_append (c : ascii) (header payload : string) :
  occurs c header = false ->
  after_first c (header +:+ String c payload) = Some payload.
Proof.
  induction header as [|d header IH]; simpl.
  - by rewrite Ascii.eqb_refl.
  - destruct (Ascii.eqb d c); [discriminate | exact IH].
Qed.

(** X1: the header of a data URI is discarded without being looked at:
    whatever comma-free text starting with [data:] precedes the first
    comma, the resolver decodes the text after that comma (further
    commas belong to the payload). *)
Theorem data_uri_header_is_ignored (E : Env) (header payload : string) :
  path_exists E (header +:+ String "," payload) = false ->
  startswith header "data:" = true ->
  occurs "," header = false ->
  _decode_image_to_pil E (header +:+ String "," payload)
  = decode_payload E payload.
Proof.
  intros Hp Hd Hc. apply decode_data_uri; [done | |].
  - by apply startswith_extends.
  - by apply after_first_append.
Qed.

Lemma data_uri_header_is_ignored_witness :
  _decode_image_to_pil Reference.full
    ("data:text/plain" +:+ String "," (b64encode Reference.tiny_png))
  = decode_payload Reference.full (b64encode Reference.tiny_png).
Proof.
  apply (data_uri_header_is_ignored Reference.full "data:text/plain"
           (b64encode Reference.tiny_png)); reflexivity.
Defined.

(** X2: a file that holds the bytes [B] and the raw base64 text of [B]
    resolve to the same outcome, provided the text names no filesystem
    entry and the decoder gives [B] back. *)
Theorem file_and_base64_agree (E : Env) (path : string) (B : list Byte.byte) :
  path_exists E path = true ->
  open_path E path = open_bytes E B ->
  path_exists E (b64encode B) = false ->
  b64decode E (b64encode B) = Ok B ->
  _decode_image_to_pil E path = _decode_image_to_pil E (b64encode B).
Proof.
  intros Hp Hfile Hraw Hdec.
  rewrite (decode_existing E _ Hp), Hfile.
  rewrite (decode_raw E _ Hraw (b64encode_not_data_uri B)).
  unfold decode_payload. by rewrite Hdec.
Qed.

Lemma file_and_base64_agree_witness :
  _decode_image_to_pil stored_env Reference.logo_path
  = _decode_image_to_pil stored_env (b64encode Reference.tiny_png).
Proof.
  apply (file_and_base64_agree stored_env Reference.logo_path Reference.tiny_png);
    vm_compute; reflexivity.
Defined.

(* ================================================================== *)
(** ** Further properties of the tools *)
(* ================================================================== *)

(** X3: [image_info] fails exactly when the resolver fails, with the
    same exception; when it returns, the dictionary has the four keys
    [width], [height], [mode], [format] and no other. *)
Theorem image_info_outcome (E : Env) (reference : string) :
  match _decode_image_to_pil E reference with
  | Ok im =>
      exists info : gmap string PyVal,
        image_info E reference = Ok info
        /\ dom info = ({[ "width"; "height"; "mode"; "format" ]} : gset string)
  | Raise e => image_info E reference = Raise e
  end.
Proof.
  unfold image_info. destruct (_decode_image_to_pil E reference) as [im|e].
  - eexists. split; [reflexivity|].
    rewrite !dom_insert_L, dom_empty_L. by rewrite union_empty_r_L.
  - reflexivity.
Qed.

(** X4: when the image carries a non-empty format tag, [image_info]
    reports that tag in its [format] field. *)
Theorem image_info_reports_tag (E : Env) (reference : string)
    (im : PILImage) (tag : string) :
  _decode_image_to_pil E reference = Ok im ->
  format im = Some tag ->
  tag <> EmptyString ->
  exists info : gmap string PyVal,
    image_info E reference = Ok info
    /\ info !! "format" = Some (PyStr tag).
Proof.
  intros Hdec Hfmt Htag. unfold image_info. rewrite Hdec. simpl.
  eexists. split; [reflexivity|]. rewrite Hfmt.
  destruct tag; [done | reflexivity].
Qed.

Lemma image_info_reports_tag_witness :
  exists info : gmap string PyVal,
    image_info Reference.full Reference.logo_path = Ok info
    /\ info !! "format" = Some (PyStr "PNG").
Proof.
  apply (image_info_reports_tag Reference.full Reference.logo_path Reference.logo);
    [reflexivity | reflexivity | discriminate].
Defined.

(** X5: the optional capabilities are isolated: [image_info],
    [grayscale], [resize] and [dominant_colors] behave the same whatever
    the state of the QR and OCR engines, [detect_qr] does not depend on
    the OCR engine and [ocr_text] does not depend on the QR engine. *)
Theorem capabilities_are_isolated (E : Env) (qr : option QRCodeDetector)
    (ocr : result Pytesseract) (reference : string) :
  image_info (with_capabilities E qr ocr) reference = image_info E reference
  /\ grayscale (with_capabilities E qr ocr) reference = grayscale E reference
  /\ (forall max_w max_h,
        resize (with_capabilities E qr ocr) reference max_w max_h
        = resize E reference max_w max_h)
  /\ (forall colors,
        dominant_colors (with_capabilities E qr ocr) reference colors
        = dominant_colors E reference colors)
  /\ detect_qr (with_capabilities E (cv2 E) ocr) reference = detect_qr E reference
  /\ (forall lang,
        ocr_text (with_capabilities E qr (import_pytesseract E)) reference lang
        = ocr_text E reference lang).
Proof. repeat split. Qed.

(* ================================================================== *)
(** ** Further properties of QR detection *)
(* ================================================================== *)

Lemma filter_none {A} (p : A -> bool) (l : list A) :
  (forall x, x ∈ l -> p x = false) -> List.filter p l = [].
Proof.
  induction l as [|x l IH]; intros H; simpl; [reflexivity|].
  rewrite (H x) by (by left). apply IH. intros y Hy. apply H. by right.
Qed.

Lemma elem_of_filter_bool {A} (p : A -> bool) (l : list A) (x : A) :
  x ∈ List.filter p l <-> x ∈ l /\ p x = true.
Proof. by rewrite !list_elem_of_In, List.filter_In. Qed.

(** X6: the merging loop of [detect_qr] only appends: the strings found
    so far stay in place as a prefix, and a list free of duplicates and
    of empty strings stays so. *)
Theorem merge_loop_only_appends (datas decoded_infos : list string) :
  datas `prefix_of` foldl merge_step datas decoded_infos
  /\ (NoDup datas -> NoDup (foldl merge_step datas decoded_infos))
  /\ (EmptyString ∉ datas ->
      EmptyString ∉ foldl merge_step datas decoded_infos).
Proof.
  rewrite merge_loop. split; [by eexists|]. split.
  - intros Hnd. apply NoDup_app. split; [done|]. split.
    + intros s Hs [_ Hnot]%elem_of_filter_bool.
      apply negb_true_iff, bool_decide_eq_false in Hnot. done.
    + apply NoDup_ListNoDup, List.NoDup_filter, NoDup_ListNoDup, first_seen_NoDup.
  - intros Hne [?|[[Hs _]%first_seen_elem _]%elem_of_filter_bool]%elem_of_app; done.
Qed.

Lemma merge_loop_only_appends_witness :
  ["HELLO"] `prefix_of` foldl merge_step ["HELLO"] [""; "WORLD"; "HELLO"]
  /\ NoDup (foldl merge_step ["HELLO"] [""; "WORLD"; "HELLO"])
  /\ (EmptyString ∉ foldl merge_step ["HELLO"] [""; "WORLD"; "HELLO"]).
Proof.
  destruct (merge_loop_only_appends ["HELLO"] [""; "WORLD"; "HELLO"])
    as (Hp & Hnd & Hne).
  split; [exact Hp|]. split.
  - apply Hnd. apply NoDup_singleton.
  - apply Hne. by intros ?%list_elem_of_singleton.
Defined.

(** X7: merging the same strings a second time adds nothing. *)
Theorem merge_loop_idempotent (datas decoded_infos : list string) :
  foldl merge_step (foldl merge_step datas decoded_infos) decoded_infos
  = foldl merge_step datas decoded_infos.
Proof.
  rewrite (merge_loop decoded_infos (foldl _ _ _)).
  rewrite filter_none; [by rewrite app_nil_r|].
  intros s Hs. apply negb_false_iff, bool_decide_eq_true.
  rewrite merge_loop, elem_of_app, elem_of_filter_bool.
  destruct (bool_decide (s ∈ datas)) eqn:Hin.
  - left. by apply bool_decide_eq_true in Hin.
  - right. by split.
Qed.

Lemma detect_qr_inversion (E : Env) (reference : string) (r : gmap string PyVal) :
  detect_qr E reference = Ok r ->
  (cv2 E = None /\ r = qr_unavailable)
  \/ (exists detector im0 im single extra,
        cv2 E = Some detector
        /\ _decode_image_to_pil E reference = Ok im0
        /\ convert E im0 "RGB" = Ok im
        /\ detectAndDecode detector (np_array im) = Ok single
        /\ additional detector (np_array im) = Ok extra
        /\ r = qr_result (first_seen (single :: extra))).
Proof.
  unfold detect_qr. destruct (cv2 E) as [detector|]; [|intros [= <-]; by left].
  intros H. right.
  apply bind_inv in H as (im0 & Hdec & H).
  apply bind_inv in H as (im & Hconv & H).
  apply bind_inv in H as (single & Hsingle & H).
  apply bind_inv in H as (datas & Hmulti & H).
  injection H as <-.
  assert (exists extra, additional detector (np_array im) = Ok extra
                        /\ datas = first_seen (single :: extra))
    as (extra & Hextra & ->).
  { unfold additional. destruct (detectAndDecodeMulti detector) as [multi|].
    - apply bind_inv in Hmulti as (infos & -> & [= <-]).
      eexists. split; [reflexivity|]. apply first_seen_single.
    - injection Hmulti as <-. exists []. split; [reflexivity|].
      apply (first_seen_single single []). }
  exists detector, im0, im, single, extra. done.
Qed.

(** X8: [detect_qr] returns a dictionary only in two ways: without the
    QR engine, the fixed error dictionary; with it, after the resolver,
    the conversion, the direct decode and the multi-symbol capability
    (when present) have all succeeded, the merged strings.  No partial
    result is returned when a stage fails. *)
Theorem detect_qr_success (E : Env) (reference : string) (r : gmap string PyVal) :
  detect_qr E reference = Ok r ->
  (cv2 E = None /\ r = qr_unavailable)
  \/ (exists detector im0 im single extra,
        cv2 E = Some detector
        /\ _decode_image_to_pil E reference = Ok im0
        /\ convert E im0 "RGB" = Ok im
        /\ detectAndDecode detector (np_array im) = Ok single
        /\ additional detector (np_array im) = Ok extra
        /\ r = qr_result (first_seen (single :: extra))).
Proof. apply detect_qr_inversion. Qed.

Lemma detect_qr_success_witness :
  (cv2 Reference.full = None
   /\ qr_result ["HELLO"; "WORLD"; "jawz"] = qr_unavailable)
  \/ (exists detector im0 im single extra,
        cv2 Reference.full = Some detector
        /\ _decode_image_to_pil Reference.full (b64encode Reference.tiny_png) = Ok im0
        /\ convert Reference.full im0 "RGB" = Ok im
        /\ detectAndDecode detector (np_array im) = Ok single
        /\ additional detector (np_array im) = Ok extra
        /\ qr_result ["HELLO"; "WORLD"; "jawz"]
           = qr_result (first_seen (single :: extra))).
Proof.
  apply (detect_qr_success Reference.full (b64encode Reference.tiny_png)).
  vm_compute. reflexivity.
Defined.

(** X9: the multi-symbol detection is not guarded: when it raises,
    [detect_qr] raises the same exception and the string already
    obtained by the direct decode is not returned. *)
Theorem multi_failure_is_not_caught (E : Env) (reference : string)
    (detector : QRCodeDetector) (multi : ndarray -> result (option (list string)))
    (im0 im : PILImage) (single : string) (e : exception) :
  cv2 E = Some detector ->
  _decode_image_to_pil E reference = Ok im0 ->
  convert E im0 "RGB" = Ok im ->
  detectAndDecode detector (np_array im) = Ok single ->
  detectAndDecodeMulti detector = Some multi ->
  multi (np_array im) = Raise e ->
  detect_qr E reference = Raise e.
Proof.
  intros Hcv Hdec Hconv Hsingle Hhas Hmulti.
  unfold detect_qr. rewrite Hcv, Hdec. simpl. rewrite Hconv. simpl.
  rewrite Hsingle. simpl. rewrite Hhas, Hmulti. reflexivity.
Qed.

Lemma multi_failure_is_not_caught_witness :
  detect_qr
    (Reference.env (Some "PNG")
       (Some (mkDetector (fun _ => Ok "HELLO")
                (Some (fun _ => Raise (RuntimeError "detectAndDecodeMulti failed")))))
       (Ok Reference.tesseract))
    (b64encode Reference.tiny_png)
  = Raise (RuntimeError "detectAndDecodeMulti failed").
Proof.
  eapply (multi_failure_is_not_caught _ _ _ _
            (mkPIL 2 1 "RGB" (Some "PNG") [0; 0; 0])
            (mkPIL 2 1 "RGB" None [0; 0; 0]) "HELLO");
    vm_compute; reflexivity.
Defined.

(** X10: the [error] key tells the two outcomes of [detect_qr] apart: a
    returned dictionary has it exactly when the QR engine is missing, so
    [count = 0] without [error] means that the engine ran and found
    nothing. *)
Theorem detect_qr_error_key (E : Env) (reference : string) (r : gmap string PyVal) :
  detect_qr E reference = Ok r ->
  (is_Some (r !! "error") <-> cv2 E = None).
Proof.
  intros [[Hcv ->]|(det & im0 & im & single & extra & Hcv & _ & _ & _ & _ & ->)]%detect_qr_inversion.
  - split; [done|]. intros _. by eexists.
  - rewrite Hcv. split; [|done]. unfold qr_result.
    rewrite !lookup_insert_ne, lookup_empty by done. by intros [? ?].
Qed.

Lemma detect_qr_error_key_witness :
  is_Some (qr_unavailable !! "error") <-> cv2 Reference.without_cv2 = None.
Proof.
  apply (detect_qr_error_key Reference.without_cv2 "not an image").
  reflexivity.
Defined.

Lemma first_seen_nil (l : list string) :
  first_seen l = [] <-> Forall (fun s => s = EmptyString) l.
Proof.
  split.
  - intros H. apply Forall_forall. intros s Hs.
    destruct (decide (s = EmptyString)) as [|Hne]; [done|].
    assert (s ∈ first_seen l) as Hin by (by apply first_seen_elem).
    rewrite H in Hin. by apply elem_of_nil in Hin.
  - intros H. apply elem_of_nil_inv. intros s [Hne Hs]%first_seen_elem.
    rewrite Forall_forall in H. by apply Hne, H.
Qed.

(** X11: with the QR engine available and every stage successful, the
    count is at most one more than the number of strings of the
    multi-symbol capability, is at least one when the direct decode is
    not empty, and is zero exactly when every decoded string is empty. *)
Theorem detect_qr_count_bounds (E : Env) (reference : string)
    (detector : QRCodeDetector) (im0 im : PILImage)
    (single : string) (extra : list string) :
  cv2 E = Some detector ->
  _decode_image_to_pil E reference = Ok im0 ->
  convert E im0 "RGB" = Ok im ->
  detectAndDecode detector (np_array im) = Ok single ->
  additional detector (np_array im) = Ok extra ->
  exists (r : gmap string PyVal) (n : Z),
    detect_qr E reference = Ok r
    /\ r !! "count" = Some (PyInt n)
    /\ 0 <= n <= 1 + Z.of_nat (length extra)
    /\ (single <> EmptyString -> 1 <= n)
    /\ (n = 0 <-> single = EmptyString /\ Forall (fun s => s = EmptyString) extra).
Proof.
  intros Hcv Hdec Hconv Hsingle Hextra.
  exists (qr_result (first_seen (single :: extra))),
         (Z.of_nat (length (first_seen (single :: extra)))).
  split; [|split; [reflexivity|]].
  - rewrite <- first_seen_single.
    unfold detect_qr. rewrite Hcv, Hdec. simpl. rewrite Hconv. simpl.
    rewrite Hsingle. simpl. unfold additional in Hextra.
    destruct (detectAndDecodeMulti detector) as [multi|].
    + destruct (multi (np_array im)) as [infos|]; [|discriminate].
      by injection Hextra as <-.
    + by injection Hextra as <-.
  - pose proof (sublist_length _ _ (first_seen_sublist (single :: extra))) as Hlen.
    change (length (single :: extra)) with (S (length extra)) in Hlen.
    split; [lia|]. split.
    + intros Hne. destruct single as [|c single]; [done|]. simpl. lia.
    + rewrite <- (Forall_cons (fun s => s = EmptyString)), <- first_seen_nil.
      destruct (first_seen (single :: extra)); simpl; split; (done || lia).
Qed.

Lemma detect_qr_count_bounds_witness :
  exists (r : gmap string PyVal) (n : Z),
    detect_qr Reference.full (b64encode Reference.tiny_png) = Ok r
    /\ r !! "count" = Some (PyInt n)
    /\ 0 <= n <= 1 + Z.of_nat (length ["HELLO"; ""; "WORLD"; "WORLD"; "jawz"])
    /\ ("HELLO" <> EmptyString -> 1 <= n)
    /\ (n = 0 <-> "HELLO" = EmptyString
                  /\ Forall (fun s => s = EmptyString)
                       ["HELLO"; ""; "WORLD"; "WORLD"; "jawz"]).
Proof.
  apply (detect_qr_count_bounds Reference.full (b64encode Reference.tiny_png)
           Reference.detector
           (mkPIL 2 1 "RGB" (Some "PNG") [0; 0; 0])
           (mkPIL 2 1 "RGB" None [0; 0; 0]));
    vm_compute; reflexivity.
Defined.

(* ================================================================== *)
(** ** Further properties of the dominant colours *)
(* ================================================================== *)

(** X12: every [colors] below one is treated as one. *)
Theorem dominant_colors_clamps (E : Env) (reference : string) (colors : Z) :
  colors <= 1 ->
  dominant_colors E reference colors = dominant_colors E reference 1.
Proof.
  intros H. unfold dominant_colors.
  replace (Z.max 1 colors) with (Z.max 1 1) by lia. reflexivity.
Qed.

Lemma dominant_colors_clamps_witness :
  dominant_colors Reference.full (b64encode Reference.tiny_png) (-7)
  = dominant_colors Reference.full (b64encode Reference.tiny_png) 1.
Proof.
  apply (dominant_colors_clamps Reference.full (b64encode Reference.tiny_png) (-7)).
  lia.
Defined.

(** X13: when the quantized image reports no colours in use, or has no
    palette, [dominant_colors] returns an empty list instead of failing. *)
Theorem dominant_colors_nothing_in_use (E : Env) (reference : string)
    (colors : Z) (im0 im q : PILImage) :
  _decode_image_to_pil E reference = Ok im0 ->
  convert E im0 "RGB" = Ok im ->
  quantize E im (Z.max 1 colors) MEDIANCUT = Ok q ->
  list_or_empty (getcolors E q) = [] \/ list_or_empty (getpalette E q) = [] ->
  dominant_colors E reference colors = Ok (<["colors" := PyStrList []]> ∅).
Proof.
  intros Hdec Hconv Hq Hnone. unfold dominant_colors.
  rewrite Hdec. simpl. rewrite Hconv. simpl. rewrite Hq. simpl.
  assert (truthy_list (getcolors E q) && truthy_list (getpalette E q) = false)
    as ->; [|reflexivity].
  destruct Hnone as [H|H].
  - destruct (getcolors E q) as [[|? ?]|]; try done.
  - destruct (getpalette E q) as [[|? ?]|]; try done; apply andb_false_r.
Qed.

Lemma dominant_colors_nothing_in_use_witness :
  dominant_colors
    (mkEnv (path_exists Reference.full) (b64decode Reference.full)
       (open_path Reference.full) (open_bytes Reference.full)
       (copy Reference.full) (convert Reference.full)
       (ops_grayscale Reference.full) (thumbnail Reference.full)
       (save Reference.full) (quantize Reference.full)
       (getpalette Reference.full) (fun _ => None)
       (cv2 Reference.full) (import_pytesseract Reference.full))
    (b64encode Reference.tiny_png) 5
  = Ok (<["colors" := PyStrList []]> ∅).
Proof.
  eapply (dominant_colors_nothing_in_use _ _ _
            (mkPIL 2 1 "RGB" (Some "PNG") [0; 0; 0])
            (mkPIL 2 1 "RGB" None [0; 0; 0])
            (mkPIL 2 1 "P" None [0; 0; 0]));
    [vm_compute; reflexivity | reflexivity | reflexivity | left; reflexivity].
Defined.

Lemma for_each_length {A B} (f : A -> result B) (l : list A) (ys : list B) :
  for_each f l = Ok ys -> length ys = length l.
Proof.
  revert ys. induction l as [|x l IH]; intros ys; simpl.
  - by intros [= <-].
  - intros H. apply bind_inv in H as (y & _ & H).
    apply bind_inv in H as (ys' & Hys & [= <-]).
    simpl. by rewrite (IH ys').
Qed.

Lemma slice_length {A} (l : list A) (a b : Z) :
  0 <= a -> a <= b ->
  Z.of_nat (length (slice l a b))
  = Z.min b (Z.of_nat (length l)) - Z.min a (Z.of_nat (length l)).
Proof.
  intros Ha Hab. unfold slice.
  replace (a <? 0) with false by (symmetry; apply Z.ltb_ge; lia).
  replace (b <? 0) with false by (symmetry; apply Z.ltb_ge; lia).
  rewrite length_take, length_drop. lia.
Qed.

(** X14: whenever [dominant_colors] returns, its dictionary has the
    single key [colors] and the list under it has at most
    [max(1, colors)] entries, whatever the quantizer delivered. *)
Theorem dominant_colors_at_most (E : Env) (reference : string) (colors : Z)
    (r : gmap string PyVal) :
  dominant_colors E reference colors = Ok r ->
  exists hexes : list string,
    r = <["colors" := PyStrList hexes]> ∅
    /\ Z.of_nat (length hexes) <= Z.max 1 colors.
Proof.
  unfold dominant_colors. intros H.
  apply bind_inv in H as (im0 & _ & H).
  apply bind_inv in H as (im & _ & H).
  apply bind_inv in H as (q & _ & H).
  apply bind_inv in H as (hexes & Hloop & [= <-]).
  exists hexes. split; [reflexivity|].
  destruct (truthy_list (getcolors E q) && truthy_list (getpalette E q)).
  - apply for_each_length in Hloop. rewrite Hloop.
    rewrite slice_length by lia. lia.
  - injection Hloop as <-. simpl. lia.
Qed.

Lemma dominant_colors_at_most_witness :
  exists hexes : list string,
    <["colors" := PyStrList ["#008000"; "#ff0000"]]> ∅
    = (<["colors" := PyStrList hexes]> ∅ : gmap string PyVal)
    /\ Z.of_nat (length hexes) <= Z.max 1 2.
Proof.
  apply (dominant_colors_at_most Reference.full (b64encode Reference.tiny_png) 2).
  vm_compute. reflexivity.
Defined.

Lemma unpack3_short {A} (l : list A) :
  (length l < 3)%nat -> exists msg, unpack3 l = Raise (ValueError msg).
Proof.
  destruct l as [|a [|b [|c l]]]; simpl; intros H; try lia; eauto.
Qed.

Lemma hex_of_entry_raises (palette : list Z) (t : Z * Z) (e : exception) :
  hex_of_entry palette t = Raise e -> exists msg, e = ValueError msg.
Proof.
  unfold hex_of_entry.
  destruct (slice palette (snd t * 3) (snd t * 3 + 3)) as [|a [|b [|c [|d l]]]];
    simpl; intros [= <-]; eauto.
Qed.

Lemma hex_of_entry_short (palette : list Z) (t : Z * Z) :
  0 <= snd t -> Z.of_nat (length palette) < snd t * 3 + 3 ->
  exists msg, hex_of_entry palette t = Raise (ValueError msg).
Proof.
  intros H0 Hlen. unfold hex_of_entry.
  destruct (unpack3_short (slice palette (snd t * 3) (snd t * 3 + 3)))
    as [msg ->]; [|by eexists].
  apply Nat2Z.inj_lt. rewrite slice_length by lia. lia.
Qed.

Lemma for_each_raises {A B} (f : A -> result B) (l : list A) (x : A) (e : exception) :
  x ∈ l -> f x = Raise e ->
  exists (y : A) (e' : exception), y ∈ l /\ f y = Raise e' /\ for_each f l = Raise e'.
Proof.
  induction l as [|z l IH]; intros Hin Hx; [by apply elem_of_nil in Hin|].
  simpl. destruct (f z) as [b|e'] eqn:Hz.
  - apply elem_of_cons in Hin as [->|Hin]; [congruence|].
    destruct (IH Hin Hx) as (y & e'' & Hy & Hfy & ->).
    exists y, e''. split; [by right | done].
  - exists z, e'. split; [by left | done].
Qed.

(** X15: a palette too short for an index among the entries selected
    makes [dominant_colors] raise [ValueError] (the three-way unpacking
    of the slice fails); no shorter list is returned. *)
Theorem dominant_colors_short_palette (E : Env) (reference : string)
    (colors : Z) (im0 im q : PILImage) (palette : list Z)
    (used : list (Z * Z)) (t : Z * Z) :
  _decode_image_to_pil E reference = Ok im0 ->
  convert E im0 "RGB" = Ok im ->
  quantize E im (Z.max 1 colors) MEDIANCUT = Ok q ->
  getpalette E q = Some palette ->
  getcolors E q = Some used ->
  palette <> [] ->
  t ∈ take (Z.to_nat (Z.max 1 colors)) (sorted_desc used) ->
  0 <= snd t ->
  Z.of_nat (length palette) < snd t * 3 + 3 ->
  exists msg, dominant_colors E reference colors = Raise (ValueError msg).
Proof.
  intros Hdec Hconv Hq Hpal Hused Hne Ht H0 Hshort. unfold dominant_colors.
  rewrite Hdec. simpl. rewrite Hconv. simpl. rewrite Hq. simpl.
  rewrite Hpal, Hused.
  assert (used <> []) as Hu.
  { intros ->. simpl in Ht. rewrite take_nil in Ht. by apply elem_of_nil in Ht. }
  destruct used as [|u used]; [done|]. destruct palette as [|p palette]; [done|].
  cbn [truthy_list andb list_or_empty].
  rewrite slice_prefix by lia.
  destruct (hex_of_entry_short (p :: palette) t H0 Hshort) as [msg Hraise].
  destruct (for_each_raises _ _ _ _ Ht Hraise) as (y & e' & _ & Hy & ->).
  apply hex_of_entry_raises in Hy as [msg' ->]. by exists msg'.
Qed.

Lemma dominant_colors_short_palette_witness :
  exists msg,
    dominant_colors
      (mkEnv (path_exists Reference.full) (b64decode Reference.full)
         (open_path Reference.full) (open_bytes Reference.full)
         (copy Reference.full) (convert Reference.full)
         (ops_grayscale Reference.full) (thumbnail Reference.full)
         (save Reference.full) (quantize Reference.full)
         (fun _ => Some [255; 0; 0]) (getcolors Reference.full)
         (cv2 Reference.full) (import_pytesseract Reference.full))
      (b64encode Reference.tiny_png) 5
    = Raise (ValueError msg).
Proof.
  eapply (dominant_colors_short_palette _ _ _
            (mkPIL 2 1 "RGB" (Some "PNG") [0; 0; 0])
            (mkPIL 2 1 "RGB" None [0; 0; 0])
            (mkPIL 2 1 "P" None [0; 0; 0])
            [255; 0; 0] [(2, 0); (5, 1); (2, 2)] (5, 1)).
  - vm_compute. reflexivity.
  - reflexivity.
  - reflexivity.
  - reflexivity.
  - reflexivity.
  - discriminate.
  - vm_compute. by left.
  - simpl. lia.
  - simpl. lia.
Defined.

Lemma insert_desc_filter {A} (c : Z) (x : Z * A) (l : list (Z * A)) :
  List.filter (fun t => fst t =? c) (insert_desc x l)
  = List.filter (fun t => fst t =? c) (x :: l).
Proof.
  induction l as [|y l IH]; [reflexivity|].
  cbn [insert_desc]. destruct (Z.leb_spec (fst y) (fst x)) as [Hle|Hlt];
    [reflexivity|].
  cbn [List.filter] in *. rewrite IH.
  destruct (Z.eqb_spec (fst x) c), (Z.eqb_spec (fst y) c); try reflexivity. lia.
Qed.

(** X16: the sort of the entries in use is stable: entries with the same
    pixel count keep the order in which the quantizer listed them. *)
Theorem sorted_desc_stable {A} (c : Z) (l : list (Z * A)) :
  List.filter (fun t => fst t =? c) (sorted_desc l)
  = List.filter (fun t => fst t =? c) l.
Proof.
  induction l as [|x l IH]; [reflexivity|].
  cbn [sorted_desc foldr]. rewrite insert_desc_filter.
  cbn [List.filter]. fold (sorted_desc l). by rewrite IH.
Qed.

(** X17: the text of a colour can be read back: for a palette of byte
    triples that covers the index, [#rrggbb] parses to the three palette
    values the entry points at. *)
Theorem hex_colour_round_trip (palette : list Z) (t : Z * Z) :
  Forall (fun v => 0 <= v < 256) palette ->
  0 <= snd t -> snd t * 3 + 3 <= Z.of_nat (length palette) ->
  exists s : string,
    hex_of_entry palette t = Ok s
    /\ parse_hex_colour s
       = Some (nth (Z.to_nat (snd t * 3 + 0)) palette 0,
               nth (Z.to_nat (snd t * 3 + 1)) palette 0,
               nth (Z.to_nat (snd t * 3 + 2)) palette 0).
Proof.
  intros Hpal H0 Hlen. eexists. split; [by apply hex_of_entry_ok|].
  assert (Hbyte : forall v, 0 <= v < 256 ->
            exists hi lo, format_02x v = String hi (String lo EmptyString)
                          /\ parse_hex_byte hi lo = Some v).
  { intros v Hv.
    assert (Hall : forallb (fun n =>
              match format_02x (Z.of_nat n) with
              | String hi (String lo EmptyString) =>
                  bool_decide (parse_hex_byte hi lo = Some (Z.of_nat n))
              | _ => false
              end) (seq 0 256) = true) by (vm_compute; reflexivity).
    rewrite forallb_forall in Hall.
    specialize (Hall (Z.to_nat v) ltac:(apply in_seq; lia)).
    rewrite Z2Nat.id in Hall by lia.
    destruct (format_02x v) as [|hi [|lo [|? ?]]]; try done.
    apply bool_decide_eq_true in Hall. eauto. }
  assert (Hnth : forall k, 0 <= k < 3 ->
            0 <= nth (Z.to_nat (snd t * 3 + k)) palette 0 < 256).
  { intros k Hk. rewrite Forall_forall in Hpal.
    apply Hpal, list_elem_of_In, nth_In. lia. }
  destruct (Hbyte _ (Hnth 0 ltac:(lia))) as (r1 & r0 & Hr & Pr).
  destruct (Hbyte _ (Hnth 1 ltac:(lia))) as (g1 & g0 & Hg & Pg).
  destruct (Hbyte _ (Hnth 2 ltac:(lia))) as (b1 & b0 & Hb & Pb).
  unfold palette_colour. rewrite Hr, Hg, Hb.
  change (String r1 (String r0 "") +:+ String g1 (String g0 "")
          +:+ String b1 (String b0 ""))
    with (String r1 (String r0 (String g1 (String g0 (String b1 (String b0 "")))))).
  cbn -[parse_hex_byte]. by rewrite Pr, Pg, Pb.
Qed.

Lemma hex_colour_round_trip_witness :
  exists s : string,
    hex_of_entry [255; 0; 0; 0; 128; 0; 18; 52; 86] (2, 2) = Ok s
    /\ parse_hex_colour s = Some (18, 52, 86).
Proof.
  apply (hex_colour_round_trip [255; 0; 0; 0; 128; 0; 18; 52; 86] (2, 2)).
  - repeat constructor; lia.
  - simpl. lia.
  - simpl. lia.
Defined.

(* ================================================================== *)
(** ** Further properties of text recognition and of the payloads *)
(* ================================================================== *)

(** X18: [ocr_text] returns a string only in two ways: the explanatory
    message built from the exception of a failed import, or the text
    recognized on the image converted to mode [L], after the resolver,
    the conversion and the recognition have all succeeded. *)
Theorem ocr_text_success (E : Env) (reference lang text : string) :
  ocr_text E reference lang = Ok text <->
  (exists e, import_pytesseract E = Raise e /\ text = ocr_unavailable e)
  \/ (exists pytesseract im0 im,
        import_pytesseract E = Ok pytesseract
        /\ _decode_image_to_pil E reference = Ok im0
        /\ convert E im0 "L" = Ok im
        /\ image_to_string pytesseract im lang = Ok text).
Proof.
  unfold ocr_text. split.
  - destruct (import_pytesseract E) as [pt|e].
    + intros H. right.
      apply bind_inv in H as (im0 & Hdec & H).
      apply bind_inv in H as (im & Hconv & H).
      by exists pt, im0, im.
    + intros [= <-]. left. by exists e.
  - intros [(e & -> & ->)|(pt & im0 & im & -> & -> & Hconv & Hocr)].
    + reflexivity.
    + simpl. by rewrite Hconv.
Qed.

(** X19: only the import is guarded in [ocr_text]: a failure of the
    recognition itself (for instance a missing Tesseract binary reported
    by [image_to_string]) is raised, not turned into the message. *)
Theorem recognition_failure_is_not_caught (E : Env) (reference lang : string)
    (pytesseract : Pytesseract) (im0 im : PILImage) (e : exception) :
  import_pytesseract E = Ok pytesseract ->
  _decode_image_to_pil E reference = Ok im0 ->
  convert E im0 "L" = Ok im ->
  image_to_string pytesseract im lang = Raise e ->
  ocr_text E reference lang = Raise e.
Proof.
  intros Himp Hdec Hconv Hocr. unfold ocr_text.
  rewrite Himp, Hdec. simpl. by rewrite Hconv.
Qed.

Lemma recognition_failure_is_not_caught_witness :
  ocr_text
    (Reference.env (Some "PNG") (Some Reference.detector)
       (Ok (mkTesseract (fun _ _ => Raise (RuntimeError "tesseract is not installed")))))
    Reference.logo_path "eng"
  = Raise (RuntimeError "tesseract is not installed").
Proof.
  eapply (recognition_failure_is_not_caught _ _ _ _ Reference.logo
            (mkPIL 16 8 "L" None [])); reflexivity.
Defined.

(** X20: [grayscale] returns a payload exactly when the resolver, the
    grayscale conversion and the [PNG] encoder succeed in turn; the
    payload is declared [png] and holds what the encoder wrote for the
    converted image. *)
Theorem grayscale_success (E : Env) (reference : string) (out : Image) :
  grayscale E reference = Ok out <->
  exists im g,
    _decode_image_to_pil E reference = Ok im
    /\ ops_grayscale E im = Ok g
    /\ save E g "PNG" = Ok (data out)
    /\ image_format out = "png".
Proof.
  unfold grayscale. split.
  - intros H.
    apply bind_inv in H as (im & Hdec & H).
    apply bind_inv in H as (g & Hg & H).
    apply bind_inv in H as (buf & Hsave & [= <-]).
    by exists im, g.
  - intros (im & g & -> & Hg & Hsave & Hfmt). simpl.
    rewrite Hg. simpl. rewrite Hsave. simpl.
    destruct out as [d f]. simpl in *. by subst.
Qed.

(** X21: [resize] returns a payload exactly when the resolver, the copy,
    the thumbnail of the copy for the box [(max_w, max_h)] and the [PNG]
    encoder succeed in turn; the payload is declared [png] and holds
    what the encoder wrote for the thumbnail. *)
Theorem resize_success (E : Env) (reference : string) (max_w max_h : Z)
    (out : Image) :
  resize E reference max_w max_h = Ok out <->
  exists im0 im im',
    _decode_image_to_pil E reference = Ok im0
    /\ copy E im0 = Ok im
    /\ thumbnail E im (max_w, max_h) = Ok im'
    /\ save E im' "PNG" = Ok (data out)
    /\ image_format out = "png".
Proof.
  unfold resize. split.
  - intros H.
    apply bind_inv in H as (im0 & Hdec & H).
    apply bind_inv in H as (im & Hcopy & H).
    apply bind_inv in H as (im' & Hthumb & H).
    apply bind_inv in H as (buf & Hsave & [= <-]).
    by exists im0, im, im'.
  - intros (im0 & im & im' & -> & Hcopy & Hthumb & Hsave & Hfmt). simpl.
    rewrite Hcopy. simpl. rewrite Hthumb. simpl. rewrite Hsave. simpl.
    destruct out as [d f]. simpl in *. by subst.
Qed.

(* ================================================================== *)
(** ** Properties of the start-up block *)
(* ================================================================== *)

(** X22: unless the lowercased [MCP_HTTP] is one of [1], [true], [yes]
    (in particular when it is unset), the server runs on [stdio] with its
    settings untouched: [MCP_HOST], [MCP_PORT] and [MCP_PATH] are not
    read, so a malformed port cannot make the start-up fail. *)
Theorem stdio_ignores_network_settings (int : string -> result Z)
    (environ : gmap string string) (settings : Settings) :
  environ !! "MCP_HTTP" = None
  \/ str_lower (getenv environ "MCP_HTTP" "0") ∉ http_flags ->
  main int environ settings = Ok (settings, "stdio").
Proof.
  intros H. unfold main.
  assert (str_lower (getenv environ "MCP_HTTP" "0") ∉ http_flags) as Hoff.
  { destruct H as [Hunset|H]; [|done].
    unfold getenv. rewrite Hunset. by vm_compute. }
  by rewrite bool_decide_eq_false_2.
Qed.

Lemma stdio_ignores_network_settings_witness :
  main decimal (<["MCP_HTTP" := "on"]> (<["MCP_PORT" := "80a"]> ∅))
    (mkSettings "0.0.0.0" 8000 "/")
  = Ok (mkSettings "0.0.0.0" 8000 "/", "stdio").
Proof.
  apply (stdio_ignores_network_settings decimal).
  right. by vm_compute.
Defined.

(** X23: the flag is compared after lowercasing: two values of
    [MCP_HTTP] with the same lowercase form start the server the same
    way. *)
Theorem http_flag_ignores_case (int : string -> result Z)
    (environ : gmap string string) (settings : Settings) (v1 v2 : string) :
  str_lower v1 = str_lower v2 ->
  main int (<["MCP_HTTP" := v1]> environ) settings
  = main int (<["MCP_HTTP" := v2]> environ) settings.
Proof.
  intros H. unfold main, getenv.
  rewrite !lookup_insert_eq, !lookup_insert_ne by done. simpl.
  by rewrite H.
Qed.

Lemma http_flag_ignores_case_witness :
  main decimal (<["MCP_HTTP" := "TRUE"]> ∅) (mkSettings "0.0.0.0" 8000 "/")
  = main decimal (<["MCP_HTTP" := "true"]> ∅) (mkSettings "0.0.0.0" 8000 "/").
Proof.
  apply (http_flag_ignores_case decimal ∅ _ "TRUE" "true"). reflexivity.
Defined.

(** X24: with the flag set and none of [MCP_HOST], [MCP_PORT],
    [MCP_PATH] defined, the server runs on [streamable-http] at
    [127.0.0.1], port [8974], path [/mcp], whatever its settings were. *)
Theorem http_defaults (int : string -> result Z)
    (environ : gmap string string) (settings : Settings) :
  str_lower (getenv environ "MCP_HTTP" "0") ∈ http_flags ->
  environ !! "MCP_HOST" = None ->
  environ !! "MCP_PORT" = None ->
  environ !! "MCP_PATH" = None ->
  int "8974" = Ok 8974 ->
  main int environ settings
  = Ok (mkSettings "127.0.0.1" 8974 "/mcp", "streamable-http").
Proof.
  intros Hflag Hhost Hport Hpath Hint. unfold main.
  rewrite bool_decide_eq_true_2 by done.
  unfold getenv. rewrite Hhost, Hport, Hpath. simpl. by rewrite Hint.
Qed.

Lemma http_defaults_witness :
  main decimal (<["MCP_HTTP" := "Yes"]> ∅) (mkSettings "0.0.0.0" 8000 "/")
  = Ok (mkSettings "127.0.0.1" 8974 "/mcp", "streamable-http").
Proof.
  apply (http_defaults decimal); reflexivity.
Defined.
